(** * ChainInsight: the supply-chain inventory cleaning pipeline

    A shallow embedding of [clean_supply_chain_data] (clean_data.py) and of
    the pandas / Python operations it calls, followed by the properties of
    the cleaning pipeline.

    Modelling conventions.
    - A Python [float] (and a cell of a float64 column) is a [spec_float] at
      precision 53 and maximal exponent 1024, the executable IEEE-754
      binary64 specification of the Standard Library; [np.nan] is
      [S754_nan].  Primitive floats are used only to write literals
      ([Prim2SF 123.45]).
    - A Python [str] is a [string] of ASCII characters.  Characters above
      127 are treated as symbols without case that are neither digits nor
      whitespace.
    - A pandas column is a list of cells; a DataFrame is a record of
      columns of one length.
    - Code that can raise returns a [result].

    Where the model stops.
    - An integer cell [PyInt n] stands for an integer that [str] can write
      and a float can hold.  CPython's [str] raises [ValueError] on an
      integer of more than 4300 digits and [pd.to_numeric] raises
      [OverflowError] on an integer beyond the float range; the model has
      neither error, so statements about integer cells carry a bound on
      [n].
    - The numeric columns are float64 columns.  A column that pandas keeps
      as int64 is exact and wraps around on overflow; the model rounds
      integers above 2^53 and does not wrap, so it says nothing of
      [Reorder_Point] on such columns.
    - The value of a text read by [pd.to_numeric] is taken correctly
      rounded; pandas can be one unit in the last place away on long
      literals.  The statements on the stock parser give the value of
      a text only for integers that binary64 holds exactly. *)

From Stdlib Require Import ZArith Lia Bool Ascii String List Floats DecimalString.
From Stdlib Require Import DecimalN.
From stdpp Require Import base list sorting strings.
Import ListNotations.

Set Warnings "-inexact-float".
Local Open Scope Z_scope.

(* ================================================================= *)
(** ** Exceptions *)

Inductive exn := ValueError.

Inductive result (A : Type) :=
| Ok (a : A)
| Raise (e : exn).
Arguments Ok {A} a.
Arguments Raise {A} e.

#[global] Instance result_ret : MRet result := fun A a => Ok a.

#[global] Instance result_bind : MBind result := fun A B k r =>
  match r with
  | Ok a => k a
  | Raise e => Raise e
  end.

(** [try: r except ValueError: h] *)
Definition try_except_ValueError {A} (r : result A) (h : result A) : result A :=
  match r with
  | Ok a => Ok a
  | Raise ValueError => h
  end.

(** [Series.apply(f)]: the cells are visited in order and the first
    exception aborts the traversal. *)
Fixpoint apply {A B} (f : A -> result B) (col : list A) : result (list B) :=
  match col with
  | [] => Ok []
  | a :: col' => b ← f a; bs ← apply f col'; Ok (b :: bs)
  end.

(* ================================================================= *)
(** ** binary64 *)

Definition prec : Z := 53.
Definition emax : Z := 1024.

Abbreviation f64 := spec_float.

Definition np_nan : f64 := S754_nan.
Definition f_zero : f64 := S754_zero false.
Definition f_inf : f64 := S754_infinity false.

Definition fadd : f64 -> f64 -> f64 := SFadd prec emax.
Definition fmul : f64 -> f64 -> f64 := SFmul prec emax.
Definition fdiv : f64 -> f64 -> f64 := SFdiv prec emax.
Definition feqb : f64 -> f64 -> bool := SFeqb.
Definition fltb : f64 -> f64 -> bool := SFltb.
Definition fleb : f64 -> f64 -> bool := SFleb.

(** Conversion of an integer, rounding to nearest even. *)
Definition f_of_Z (n : Z) : f64 := binary_normalize prec emax n 0 false.

Definition f_one : f64 := f_of_Z 1.
Definition f_two : f64 := f_of_Z 2.

Definition is_nan (x : f64) : bool :=
  match x with
  | S754_nan => true
  | _ => false
  end.

Definition is_finite (x : f64) : bool :=
  match x with
  | S754_zero _ | S754_finite _ _ _ => true
  | _ => false
  end.

(** The value [(-1)^neg * m * 10^e10], correctly rounded: what a decimal
    literal denotes. *)
Definition of_decimal (neg : bool) (m : N) (e10 : Z) : f64 :=
  match m with
  | N0 => S754_zero neg
  | Npos p =>
      if 0 <=? e10
      then binary_round prec emax neg (p * Z.to_pos (10 ^ e10)) 0
      else fdiv (S754_finite neg p 0)
                (S754_finite false (Z.to_pos (10 ^ (- e10))) 0)
  end.

(* ================================================================= *)
(** ** Characters and strings *)

Definition chr := ascii.

Definition code (c : chr) : N := N_of_ascii c.

(** [c.isdigit()], and the class [\d] of [re]. *)
Definition isdigit (c : chr) : bool :=
  ((48 <=? code c) && (code c <=? 57))%N.

(** [c.isspace()]: the characters removed by [str.strip()]. *)
Definition isspace (c : chr) : bool :=
  (((9 <=? code c) && (code c <=? 13))
   || ((28 <=? code c) && (code c <=? 32)))%N.

Definition isupper (c : chr) : bool := ((65 <=? code c) && (code c <=? 90))%N.
Definition islower (c : chr) : bool := ((97 <=? code c) && (code c <=? 122))%N.

Definition upper (c : chr) : chr :=
  if islower c then ascii_of_N (code c - 32) else c.
Definition lower (c : chr) : chr :=
  if isupper c then ascii_of_N (code c + 32) else c.

Definition digit_val (c : chr) : N := (code c - 48)%N.

Fixpoint lstrip (s : list chr) : list chr :=
  match s with
  | c :: s' => if isspace c then lstrip s' else s
  | [] => []
  end.

Definition rstrip (s : list chr) : list chr := rev (lstrip (rev s)).

(** [s.strip()] *)
Definition str_strip (s : string) : string :=
  string_of_list_ascii (rstrip (lstrip (list_ascii_of_string s))).

(** [s.capitalize()]: first character in upper case, the rest in lower
    case. *)
Definition str_capitalize (s : string) : string :=
  match s with
  | EmptyString => EmptyString
  | String c s' =>
      String (upper c)
        (string_of_list_ascii (map lower (list_ascii_of_string s')))
  end.

(** [any(char.isdigit() for char in s)] *)
Definition any_isdigit (s : string) : bool :=
  existsb isdigit (list_ascii_of_string s).

Definition digit_or_dot (c : chr) : bool := isdigit c || Ascii.eqb c ".".

(** [re.sub(r'[^\d.]', '', s)] *)
Definition re_sub_non_digit_dot (s : string) : string :=
  string_of_list_ascii (List.filter digit_or_dot (list_ascii_of_string s)).

(** [str(n)] for an integer. *)
Definition str_of_int (n : Z) : string := NilZero.string_of_int (Z.to_int n).

(** The number written by a list of decimal digits, most significant
    first. *)
Definition N_of_digits (ds : list chr) : N :=
  fold_left (fun acc c => (acc * 10 + digit_val c)%N) ds 0%N.

(* ================================================================= *)
(** ** [float(s)] *)

Definition read_sign (s : list chr) : bool * list chr :=
  match s with
  | c :: r =>
      if Ascii.eqb c "-" then (true, r)
      else if Ascii.eqb c "+" then (false, r)
      else (false, s)
  | [] => (false, [])
  end.

(** The continuation of a digit part: digits, each possibly preceded by
    one underscore. *)
Fixpoint digits_tail (s : list chr) : list chr * list chr :=
  match s with
  | c :: s' =>
      if isdigit c then
        let '(ds, r) := digits_tail s' in (c :: ds, r)
      else if Ascii.eqb c "_" then
        match s' with
        | c' :: s'' =>
            if isdigit c' then
              let '(ds, r) := digits_tail s'' in (c' :: ds, r)
            else ([], s)
        | [] => ([], s)
        end
      else ([], s)
  | [] => ([], [])
  end.

(** [digit (["_"] digit)*], or nothing. *)
Definition digitpart (s : list chr) : list chr * list chr :=
  match s with
  | c :: s' =>
      if isdigit c then
        let '(ds, r) := digits_tail s' in (c :: ds, r)
      else ([], s)
  | [] => ([], [])
  end.

(** [("e" | "E") ["+" | "-"] digitpart], or nothing. *)
Definition read_exponent (s : list chr) : option (Z * list chr) :=
  match s with
  | c :: r =>
      if Ascii.eqb (lower c) "e" then
        let '(eneg, r1) := read_sign r in
        let '(ds, r2) := digitpart r1 in
        match ds with
        | [] => None
        | _ => let e := Z.of_N (N_of_digits ds) in
               Some (if eneg then - e else e, r2)
        end
      else Some (0, s)
  | [] => Some (0, [])
  end.

(** [float(s)] on a string: surrounding whitespace is ignored, then an
    optional sign and either [inf], [infinity] or [nan] in any case, or a
    decimal literal.  Anything else raises [ValueError]. *)
Definition py_float (s : string) : result f64 :=
  let s0 := rstrip (lstrip (list_ascii_of_string s)) in
  let '(neg, s1) := read_sign s0 in
  let name := string_of_list_ascii (map lower s1) in
  if String.eqb name "inf" || String.eqb name "infinity" then
    Ok (S754_infinity neg)
  else if String.eqb name "nan" then Ok np_nan
  else
    let '(ip, s2) := digitpart s1 in
    let '(fp, s3) :=
      match s2 with
      | c :: r => if Ascii.eqb c "." then digitpart r else ([], s2)
      | [] => ([], [])
      end in
    match ip ++ fp with
    | [] => Raise ValueError
    | ds =>
        match read_exponent s3 with
        | Some (e, []) =>
            Ok (of_decimal neg (N_of_digits ds) (e - Z.of_nat (length fp)))
        | _ => Raise ValueError
        end
    end.

(* ================================================================= *)
(** ** [str(x)] for a float: the shortest decimal that reads back *)

Definition f_same (x y : f64) : bool :=
  match x, y with
  | S754_zero a, S754_zero b => Bool.eqb a b
  | S754_infinity a, S754_infinity b => Bool.eqb a b
  | S754_nan, S754_nan => true
  | S754_finite a m e, S754_finite b m' e' =>
      Bool.eqb a b && Pos.eqb m m' && Z.eqb e e'
  | _, _ => false
  end.

(** [floor (num / den / 10^k)] *)
Definition scaled_floor (num den k : Z) : Z :=
  if 0 <=? k then num / (den * 10 ^ k) else (num * 10 ^ (- k)) / den.

(** The largest [p] with [10^p <= num / den], searched upwards from a
    lower estimate. *)
Fixpoint log10_from (fuel : nat) (num den p : Z) : Z :=
  match fuel with
  | O => p
  | S fuel' =>
      if 1 <=? scaled_floor num den (p + 1)
      then log10_from fuel' num den (p + 1)
      else p
  end.

Definition floor_log10 (num den : Z) : Z :=
  let l := Z.log2 num - Z.log2 den in
  log10_from 4 num den ((l - 1) * 30103 / 100000 - 1).

(** Comparison of [num / den] with [(2 * lo + 1) / 2 * 10^k], the middle
    of the two candidates [lo * 10^k] and [(lo + 1) * 10^k]. *)
Definition compare_middle (num den lo k : Z) : comparison :=
  if 0 <=? k then (2 * num ?= (2 * lo + 1) * 10 ^ k * den)
  else (2 * num * 10 ^ (- k) ?= (2 * lo + 1) * den).

(** The [n]-digit decimal that reads back as [x], if there is one: the
    candidates are the two [n]-digit decimals around the value, and the
    closer one wins when both read back. *)
Definition shortest_at (x : f64) (num den p : Z) (n : nat) : option (Z * Z) :=
  let k := p - Z.of_nat n + 1 in
  let lo := scaled_floor num den k in
  let hi := lo + 1 in
  let ok_lo := f_same (of_decimal false (Z.to_N lo) k) x in
  let ok_hi := f_same (of_decimal false (Z.to_N hi) k) x in
  match ok_lo, ok_hi with
  | true, true =>
      match compare_middle num den lo k with
      | Lt => Some (lo, k)
      | Gt => Some (hi, k)
      | Eq => Some (if Z.even lo then lo else hi, k)
      end
  | true, false => Some (lo, k)
  | false, true => Some (hi, k)
  | false, false => None
  end.

Fixpoint shortest_from (fuel : nat) (x : f64) (num den p : Z) (n : nat)
  : Z * Z :=
  match shortest_at x num den p n with
  | Some d => d
  | None =>
      match fuel with
      | O => (scaled_floor num den (p - Z.of_nat n + 1), p - Z.of_nat n + 1)
      | S fuel' => shortest_from fuel' x num den p (S n)
      end
  end.

Fixpoint strip_zeros (fuel : nat) (d k : Z) : Z * Z :=
  match fuel with
  | O => (d, k)
  | S fuel' =>
      if (d mod 10 =? 0) && negb (d =? 0)
      then strip_zeros fuel' (d / 10) (k + 1)
      else (d, k)
  end.

(** The digits and the position of the decimal point of the shortest
    decimal of the positive float [m * 2^e]: the value is
    [0.digits * 10^decpt]. *)
Definition shortest_digits (m : positive) (e : Z) : string * Z :=
  let num := if 0 <=? e then Z.pos m * 2 ^ e else Z.pos m in
  let den := if 0 <=? e then 1 else 2 ^ (- e) in
  let p := floor_log10 num den in
  let '(d, k) := shortest_from 16 (S754_finite false m e) num den p 1 in
  let '(d, k) := strip_zeros 17 d k in
  let ds := NilZero.string_of_uint (N.to_uint (Z.to_N d)) in
  (ds, Z.of_nat (String.length ds) + k).

Definition zeros (n : Z) : string :=
  string_of_list_ascii (repeat "0"%char (Z.to_nat n)).

Definition format_exponent (e : Z) : string :=
  let ds := NilZero.string_of_uint (N.to_uint (Z.to_N (Z.abs e))) in
  let sign := if e <? 0 then "-"%string else "+"%string in
  let pad := if Z.abs e <? 10 then "0"%string else ""%string in
  (sign ++ pad ++ ds)%string.

(** Python's layout of the digits: scientific notation when the decimal
    point lies more than 16 places to the right or 4 or more to the left
    of the first digit. *)
Definition format_short (ds : string) (decpt : Z) : string :=
  let len := String.length ds in
  let nd := Z.of_nat len in
  let dp := Z.to_nat decpt in
  if (decpt <=? -4) || (16 <? decpt) then
    let frac :=
      if 1 <? nd then String "." (substring 1 (len - 1) ds) else ""%string in
    (substring 0 1 ds ++ frac ++ "e" ++ format_exponent (decpt - 1))%string
  else if decpt <=? 0 then ("0." ++ zeros (- decpt) ++ ds)%string
  else if nd <=? decpt then (ds ++ zeros (decpt - nd) ++ ".0")%string
  else (substring 0 dp ds ++ "." ++ substring dp (len - dp) ds)%string.

(** [str(x)] for a float. *)
Definition str_of_float (x : f64) : string :=
  match x with
  | S754_nan => "nan"%string
  | S754_infinity s => (if s then "-inf" else "inf")%string
  | S754_zero s => (if s then "-0.0" else "0.0")%string
  | S754_finite s m e =>
      let '(ds, decpt) := shortest_digits m e in
      let sign := (if s then "-" else "")%string in
      (sign ++ format_short ds decpt)%string
  end.

(* ================================================================= *)
(** ** Cells of the raw columns *)

(** A cell of [Unit_Cost_Raw] or [Current_Stock_Raw] as [pd.read_csv]
    delivers it: missing, a number, or text. *)
Inductive pyval :=
| PyNone
| PyInt (n : Z)
| PyFloat (x : f64)
| PyStr (s : string).

(** [pd.isna(value)] *)
Definition pd_isna (value : pyval) : bool :=
  match value with
  | PyNone => true
  | PyFloat x => is_nan x
  | _ => false
  end.

(** [str(value)] *)
Definition py_str (value : pyval) : string :=
  match value with
  | PyNone => "None"%string
  | PyInt n => str_of_int n
  | PyFloat x => str_of_float x
  | PyStr s => s
  end.

(* ================================================================= *)
(** ** [clean_cost] (clean_data.py, lines 45-63) *)

Definition clean_cost (value : pyval) : result f64 :=
  if pd_isna value then Ok np_nan
  else
    let value_str := str_strip (py_str value) in
    if negb (any_isdigit value_str) then Ok np_nan
    else
      let cleaned := re_sub_non_digit_dot value_str in
      try_except_ValueError (py_float cleaned) (Ok np_nan).

(* ================================================================= *)
(** ** [pd.to_numeric(..., errors='coerce')]

    pandas is not part of the repository; the reading of a text cell
    follows its documented behaviour: blanks around the number are
    ignored, then an optional sign, decimal digits with an optional
    fraction and an optional exponent must fill the whole cell; the names
    [nan], [inf] and [infinity] (any case, optional sign) are accepted
    without blanks.  Every other text is coerced to NaN.  The value of a
    literal is taken correctly rounded. *)

Definition isspace_c (c : chr) : bool :=
  (((9 <=? code c) && (code c <=? 13)) || (code c =? 32))%N.

Fixpoint skip_blanks (s : list chr) : list chr :=
  match s with
  | c :: s' => if isspace_c c then skip_blanks s' else s
  | [] => []
  end.

(** A maximal run of digits. *)
Fixpoint digit_run (s : list chr) : list chr * list chr :=
  match s with
  | c :: s' =>
      if isdigit c then let '(ds, r) := digit_run s' in (c :: ds, r)
      else ([], s)
  | [] => ([], [])
  end.

Definition read_exponent_c (s : list chr) : Z * list chr :=
  match s with
  | c :: r =>
      if Ascii.eqb (lower c) "e" then
        let '(eneg, r1) := read_sign r in
        let '(ds, r2) := digit_run r1 in
        match ds with
        | [] => (0, s)
        | _ => let e := Z.of_N (N_of_digits ds) in
               (if eneg then - e else e, r2)
        end
      else (0, s)
  | [] => (0, [])
  end.

Definition strtod (s : list chr) : option f64 :=
  let '(neg, s1) := read_sign (skip_blanks s) in
  let '(ip, s2) := digit_run s1 in
  let '(fp, s3) :=
    match s2 with
    | c :: r => if Ascii.eqb c "." then digit_run r else ([], s2)
    | [] => ([], [])
    end in
  match ip ++ fp with
  | [] => None
  | ds =>
      let '(e, s4) := read_exponent_c s3 in
      match skip_blanks s4 with
      | [] => Some (of_decimal neg (N_of_digits ds) (e - Z.of_nat (length fp)))
      | _ => None
      end
  end.

Definition special_name (s : list chr) : option f64 :=
  let '(neg, s1) := read_sign s in
  let name := string_of_list_ascii (map lower s1) in
  if String.eqb name "nan" then Some np_nan
  else if String.eqb name "inf" || String.eqb name "infinity"
  then Some (S754_infinity neg)
  else None.

Definition to_numeric_str (s : string) : f64 :=
  let cs := list_ascii_of_string s in
  match strtod cs with
  | Some x => x
  | None =>
      match special_name cs with
      | Some x => x
      | None => np_nan
      end
  end.

(** One cell of [pd.to_numeric(col, errors='coerce')]; the result column
    is read as float64. *)
Definition to_numeric_coerce (value : pyval) : f64 :=
  match value with
  | PyNone => np_nan
  | PyInt n => f_of_Z n
  | PyFloat x => x
  | PyStr s => to_numeric_str s
  end.

(* ================================================================= *)
(** ** Column operations of pandas *)

Abbreviation Series := (list f64).

(** [col < v], a boolean mask *)
Definition series_lt (col : Series) (v : f64) : list bool :=
  (fun x => fltb x v) <$> col.

(** [df.loc[mask, col] = v] *)
Definition loc_assign (mask : list bool) (col : Series) (v : f64) : Series :=
  zip_with (fun (m : bool) x => if m then v else x) mask col.

(** [col.fillna(v)] *)
Definition fill (v x : f64) : f64 := if is_nan x then v else x.
Definition fillna (col : Series) (v : f64) : Series := fill v <$> col.

(** [col.clip(lower=lo)]: a cell below [lo] becomes [lo]; missing cells
    stay missing. *)
Definition clip (lo x : f64) : f64 := if is_nan x || fleb lo x then x else lo.
Definition clip_lower (col : Series) (lo : f64) : Series := clip lo <$> col.

(** [a * b] and [a + b] on columns *)
Definition series_mul (a b : Series) : Series := zip_with fmul a b.
Definition series_add (a b : Series) : Series := zip_with fadd a b.

Definition notna (x : f64) : bool := negb (is_nan x).

(** [col.median()]: the missing cells are skipped; the middle of the
    sorted cells, or the mean of the two middle ones; NaN when every
    cell is missing. *)
Definition median (col : Series) : f64 :=
  let xs := merge_sort (fun x y : f64 => fleb x y) (List.filter notna col) in
  let n := length xs in
  match n with
  | O => np_nan
  | _ =>
      if Nat.odd n then default np_nan (xs !! (n / 2)%nat)
      else fdiv (fadd (default np_nan (xs !! (n / 2 - 1)%nat))
                      (default np_nan (xs !! (n / 2)%nat)))
                f_two
  end.

(** The cells of [col] in the rows whose key is [k], in row order. *)
Definition group_of (keys : list string) (col : Series) (k : string) : Series :=
  snd <$> List.filter (fun kv : string * f64 => String.eqb kv.1 k) (zip keys col).

(** [df.groupby(keys)[col].transform(f)]: [f] is applied to the cells of
    each group and every row receives the cell at its place in the result
    for its group. *)
Definition groupby_transform (keys : list string) (col : Series)
    (f : Series -> Series) : Series :=
  imap (fun i k =>
          default np_nan
            (f (group_of keys col k)
               !! length (group_of (take i keys) (take i col) k)))
       keys.

(** [col.nunique()] *)
Definition nunique (col : list string) : nat := length (remove_dups col).

(* ================================================================= *)
(** ** The tables *)

(** A record of the input file, as [pd.read_csv] reads it. *)
Module Raw.
Record row := Row {
  Product_ID : string;
  Category : string;
  Unit_Cost_Raw : pyval;
  Current_Stock_Raw : pyval;
  Daily_Demand_Est : f64;
  Safety_Stock_Target : f64;
  Vendor_Name : string;
  Lead_Time_Days : f64
}.
End Raw.

(** The cleaned table [df_clean]: the eleven projected columns. *)
Module Clean.
Record frame := Frame {
  Product_ID : list string;
  Category : list string;
  Unit_Cost : Series;
  Current_Stock : Series;
  Daily_Demand_Est : Series;
  Safety_Stock_Target : Series;
  Vendor_Name : list string;
  Lead_Time_Days : Series;
  Reorder_Point : Series;
  Stock_Status : list string;
  Inventory_Value : Series
}.
End Clean.

(** The row function of [df.apply(..., axis=1)] (lines 125-130). *)
Definition stock_status (Current_Stock Reorder_Point : f64) : string :=
  if feqb Current_Stock f_zero then "Out of Stock"%string
  else if fltb Current_Stock Reorder_Point then "Low Stock"%string
  else "Normal Stock"%string.

(* ================================================================= *)
(** ** [clean_supply_chain_data] (clean_data.py, lines 6-180)

    The console output is not modelled. *)

Definition clean_supply_chain_data (input_file : list Raw.row)
  : result Clean.frame :=
  let df := input_file in
  (* 2.1 *)
  let Product_ID := str_strip <$> (Raw.Product_ID <$> df) in
  (* 2.2 *)
  let Category := str_capitalize <$> (str_strip <$> (Raw.Category <$> df)) in
  (* 2.3 *)
  Unit_Cost ← apply clean_cost (Raw.Unit_Cost_Raw <$> df);
  (* 2.4 *)
  let Current_Stock := to_numeric_coerce <$> (Raw.Current_Stock_Raw <$> df) in
  let Current_Stock :=
    loc_assign (series_lt Current_Stock f_zero) Current_Stock f_zero in
  (* 2.5 *)
  let Current_Stock := fillna Current_Stock f_zero in
  let Unit_Cost :=
    groupby_transform Category Unit_Cost (fun x => fillna x (median x)) in
  let Unit_Cost := fillna Unit_Cost (median Unit_Cost) in
  (* 2.6 *)
  let Vendor_Name := str_strip <$> (Raw.Vendor_Name <$> df) in
  (* 2.7 *)
  let Daily_Demand_Est := clip_lower (Raw.Daily_Demand_Est <$> df) f_zero in
  let Safety_Stock_Target :=
    clip_lower (Raw.Safety_Stock_Target <$> df) f_zero in
  let Lead_Time_Days := clip_lower (Raw.Lead_Time_Days <$> df) f_one in
  (* 2.8 *)
  let Reorder_Point :=
    series_add (series_mul Daily_Demand_Est Lead_Time_Days)
               Safety_Stock_Target in
  let Stock_Status := zip_with stock_status Current_Stock Reorder_Point in
  let Inventory_Value := series_mul Current_Stock Unit_Cost in
  (* 3 *)
  Ok (Clean.Frame Product_ID Category Unit_Cost Current_Stock
        Daily_Demand_Est Safety_Stock_Target Vendor_Name Lead_Time_Days
        Reorder_Point Stock_Status Inventory_Value).

(* ================================================================= *)
(** ** Vocabulary of the statements *)

(** [0 <= x]; false on NaN. *)
Definition nonneg (x : f64) : bool := fleb f_zero x.

(** [1 <= x]; false on NaN. *)
Definition ge_one (x : f64) : bool := fleb f_one x.

(** The cost parsed from a raw cell; NaN stands for "unparseable". *)
Definition parsed_cost (value : pyval) : f64 :=
  match clean_cost value with
  | Ok x => x
  | Raise _ => np_nan
  end.

(** What steps 2.4 and 2.5 make of one [Current_Stock_Raw] cell. *)
Definition cleaned_stock (value : pyval) : f64 :=
  let x := to_numeric_coerce value in
  fill f_zero (if fltb x f_zero then f_zero else x).

(** The category of a record after step 2.2. *)
Definition category_of (r : Raw.row) : string :=
  str_capitalize (str_strip (Raw.Category r)).

Definition cost_of (r : Raw.row) : f64 := parsed_cost (Raw.Unit_Cost_Raw r).

(** The parsed costs of the records of category [k], in row order. *)
Definition category_costs (t : list Raw.row) (k : string) : Series :=
  cost_of <$> List.filter (fun r => String.eqb (category_of r) k) t.

(** The cost of a record after the per-category pass (lines 91-93) and
    after the global pass (line 96). *)
Definition tier1_cost (t : list Raw.row) (r : Raw.row) : f64 :=
  fill (median (category_costs t (category_of r))) (cost_of r).

Definition tier2_cost (t : list Raw.row) (r : Raw.row) : f64 :=
  fill (median (tier1_cost t <$> t)) (tier1_cost t r).

(** [Reorder_Point] of a record (lines 108-121). *)
Definition reorder_point_of (r : Raw.row) : f64 :=
  fadd (fmul (clip f_zero (Raw.Daily_Demand_Est r))
             (clip f_one (Raw.Lead_Time_Days r)))
       (clip f_zero (Raw.Safety_Stock_Target r)).

(** [len(df_clean)] *)
Definition nrows (out : Clean.frame) : nat := length (Clean.Product_ID out).

(** The [i]-th record of the cleaned table, as [to_csv] writes it. *)
Definition record_at (out : Clean.frame) (i : nat) :=
  (Clean.Product_ID out !! i, Clean.Category out !! i,
   Clean.Unit_Cost out !! i, Clean.Current_Stock out !! i,
   Clean.Daily_Demand_Est out !! i, Clean.Safety_Stock_Target out !! i,
   Clean.Vendor_Name out !! i, Clean.Lead_Time_Days out !! i,
   Clean.Reorder_Point out !! i, Clean.Stock_Status out !! i,
   Clean.Inventory_Value out !! i).

(** A float that is not NaN and carries the sign [s]: the shapes a
    rounded magnitude can take. *)
Inductive signed_as (s : bool) : f64 -> Prop :=
| signed_zero : signed_as s (S754_zero s)
| signed_inf : signed_as s (S754_infinity s)
| signed_fin m e : signed_as s (S754_finite s m e).

(** A float literal. *)
Definition lit (x : float) : f64 := Prim2SF x.

(** The characters that occur in a cell [pd.to_numeric] can read: digits,
    blanks, signs, the point, and the letters of an exponent and of
    [nan], [inf], [infinity]. *)
Definition numeric_char (c : chr) : bool :=
  isspace_c c
  || existsb (Ascii.eqb (lower c))
       (list_ascii_of_string "0123456789+-.eainfty").


(** A cell that is not null. *)
Definition present (x : f64) : Prop := is_nan x = false.

(** The invariants claimed for the cleaned table: no null in any numeric
    column (a text cell of this model is never null), and the bounds. *)
Definition claimed_invariants (out : Clean.frame) : Prop :=
  Forall present (Clean.Unit_Cost out)
  /\ Forall present (Clean.Current_Stock out)
  /\ Forall present (Clean.Daily_Demand_Est out)
  /\ Forall present (Clean.Safety_Stock_Target out)
  /\ Forall present (Clean.Lead_Time_Days out)
  /\ Forall present (Clean.Reorder_Point out)
  /\ Forall present (Clean.Inventory_Value out)
  /\ Forall (fun x => nonneg x = true) (Clean.Current_Stock out)
  /\ Forall (fun x => nonneg x = true) (Clean.Daily_Demand_Est out)
  /\ Forall (fun x => nonneg x = true) (Clean.Safety_Stock_Target out)
  /\ Forall (fun x => ge_one x = true) (Clean.Lead_Time_Days out).

(** The bounds claimed for every row of the cleaned table. *)
Definition claimed_bounds (out : Clean.frame) : Prop :=
  Forall (fun x => nonneg x = true) (Clean.Current_Stock out)
  /\ Forall (fun x => ge_one x = true) (Clean.Lead_Time_Days out)
  /\ Forall (fun x => nonneg x = true) (Clean.Safety_Stock_Target out)
  /\ Forall (fun x => present x /\ nonneg x = true) (Clean.Unit_Cost out).

(** ** Concrete tables *)

(** Two records with missing cells: no cost of the table parses, one
    demand is missing, one safety stock and one lead time are missing. *)
Definition missing_cells_table : list Raw.row :=
  [ Raw.Row "SKU-A1000" "Electronics" PyNone (PyInt 120)
      np_nan (lit 70) "Tokyo Electronics" (lit 5);
    Raw.Row "SKU-B2000" "Food" (PyStr "Quote Pending") (PyStr "150 pcs")
      (lit 10) np_nan "Hokkaido Foods" np_nan ].

(** Three categories: [Home] has the costs 10, 20, 30 and one missing
    cost, [Food] has no parsed cost at all, [Office] has 100 and 200. *)
Definition imputation_table : list Raw.row :=
  [ Raw.Row "SKU-A1001" "Home" (PyStr "10") (PyInt 5)
      (lit 1) (lit 7) "Kyoto Crafts" (lit 3);
    Raw.Row "SKU-A1002" "home " (PyStr "$20.00") (PyInt 5)
      (lit 1) (lit 7) "Kyoto Crafts" (lit 3);
    Raw.Row "SKU-A1003" "HOME" (PyStr "USD 30.00") (PyInt 5)
      (lit 1) (lit 7) "Kyoto Crafts" (lit 3);
    Raw.Row "SKU-A1004" "Home" PyNone (PyInt 5)
      (lit 1) (lit 7) "Kyoto Crafts" (lit 3);
    Raw.Row "SKU-B1005" "Food" (PyStr "Quote Pending") (PyInt 5)
      (lit 1) (lit 7) "Hokkaido Foods" (lit 3);
    Raw.Row "SKU-C1006" "Office" (PyStr "100") (PyInt 5)
      (lit 1) (lit 7) "Osaka Supplies" (lit 3);
    Raw.Row "SKU-C1007" "Office" (PyStr "200") (PyInt 5)
      (lit 1) (lit 7) "Osaka Supplies" (lit 3) ].


(* ================================================================= *)
(** ** The console summary (clean_data.py, the counters that are printed)

    The counters the pipeline computes on its way and prints: lines 28-31,
    36-38, 66-67, 75, 84, 90, 101, 110 and 137-139. *)

(** [mask.sum()] for a boolean column. *)
Definition count_true (mask : list bool) : nat :=
  length (List.filter (fun b : bool => b) mask).

(** [col.str.len().sum()] *)
Definition total_len (col : list string) : Z :=
  fold_right (fun s acc => Z.of_nat (String.length s) + acc) 0 col.

Record summary := Summary {
  spaces_removed : Z;
  unique_categories_before : nat;
  unique_categories_after : nat;
  invalid_costs : nat;
  valid_costs : Z;
  negative_stock_count : nat;
  null_stock_count : nat;
  null_cost_count : nat;
  unique_vendors : nat;
  before_lead_time : nat;
  out_of_stock : nat;
  low_stock : nat;
  normal_stock : nat
}.

Definition cleaning_summary (input_file : list Raw.row) : result summary :=
  let df := input_file in
  out ← clean_supply_chain_data df;
  let before_count := total_len (Raw.Product_ID <$> df) in
  let after_count := total_len (str_strip <$> (Raw.Product_ID <$> df)) in
  let Category := Raw.Category <$> df in
  Unit_Cost ← apply clean_cost (Raw.Unit_Cost_Raw <$> df);
  let invalid := count_true (is_nan <$> Unit_Cost) in
  let Current_Stock := to_numeric_coerce <$> (Raw.Current_Stock_Raw <$> df) in
  let negatives := series_lt Current_Stock f_zero in
  let Current_Stock := loc_assign negatives Current_Stock f_zero in
  let status_is (s : string) :=
    count_true ((fun x => String.eqb x s) <$> Clean.Stock_Status out) in
  Ok {|
    spaces_removed := before_count - after_count;
    unique_categories_before := nunique Category;
    unique_categories_after :=
      nunique (str_capitalize <$> (str_strip <$> Category));
    invalid_costs := invalid;
    valid_costs := Z.of_nat (length df) - Z.of_nat invalid;
    negative_stock_count := count_true negatives;
    null_stock_count := count_true (is_nan <$> Current_Stock);
    null_cost_count := count_true (is_nan <$> Unit_Cost);
    unique_vendors := nunique (Raw.Vendor_Name <$> df);
    before_lead_time :=
      count_true (series_lt (Raw.Lead_Time_Days <$> df) f_one);
    out_of_stock := status_is "Out of Stock";
    low_stock := status_is "Low Stock";
    normal_stock := status_is "Normal Stock"
  |}.

(* ================================================================= *)
(** ** The generator of dirty cells (generate_data.py, lines 18-32)

    [random.random()] is the argument [r]. *)

(** [a / b] rounded to the nearest integer, ties to even; [b > 0]. *)
Definition div_half_even (a b : Z) : Z :=
  let q := a / b in
  match 2 * (a mod b) ?= b with
  | Lt => q
  | Gt => q + 1
  | Eq => if Z.even q then q else q + 1
  end.

(** The magnitude of a float in hundredths, correctly rounded. *)
Definition cents (x : f64) : N :=
  match x with
  | S754_finite _ m e =>
      Z.to_N (if 0 <=? e then Z.pos m * 2 ^ e * 100
              else div_half_even (Z.pos m * 100) (2 ^ (- e)))
  | _ => 0%N
  end.

Definition digits_of_N (n : N) : list chr :=
  list_ascii_of_string (NilZero.string_of_uint (N.to_uint n)).

Definition digit_chr (d : N) : chr := ascii_of_N (48 + d).

(** Commas between groups of three digits, on the reversed digits. *)
Fixpoint group3_rev (ds : list chr) (k : nat) : list chr :=
  match ds with
  | [] => []
  | c :: r =>
      if (k =? 3)%nat then ","%char :: c :: group3_rev r 1
      else c :: group3_rev r (S k)
  end.

Definition group3 (ds : list chr) : list chr := rev (group3_rev (rev ds) 0).

(** [f"{x:.2f}"], and [f"{x:,.2f}"] when [grouping] is set. *)
Definition format_2f (grouping : bool) (x : f64) : string :=
  let sign (s : bool) := if s then ["-"%char] else [] in
  let body (n : N) :=
    let ip := digits_of_N (n / 100) in
    (if grouping then group3 ip else ip)
      ++ ["."%char; digit_chr (n mod 100 / 10); digit_chr (n mod 10)] in
  string_of_list_ascii
    match x with
    | S754_nan => list_ascii_of_string "nan"
    | S754_infinity s => sign s ++ list_ascii_of_string "inf"
    | S754_zero s => sign s ++ body 0%N
    | S754_finite s _ _ => sign s ++ body (cents x)
    end.

Definition make_dirty_cost (val : f64) (r : f64) : pyval :=
  if fltb r (lit 0.05) then PyNone
  else if fltb r (lit 0.10) then PyStr ("$" ++ format_2f false val)
  else if fltb r (lit 0.15) then PyStr ("USD " ++ format_2f false val)
  else if fltb (lit 1000) val && fltb r (lit 0.20)
       then PyStr (format_2f true val)
  else if fltb r (lit 0.22) then PyStr "Quote Pending"
  else PyFloat val.

Definition make_dirty_stock (val : Z) (r : f64) : pyval :=
  if fltb r (lit 0.03) then PyInt (- val)
  else if fltb r (lit 0.06) then PyNone
  else if fltb r (lit 0.10) then PyStr (str_of_int val ++ " pcs")
  else PyInt val.

(* ================================================================= *)
(** ** Vocabulary of the further properties *)

(** [s'] is [s] without the whitespace at its two ends. *)
Definition trimmed_of (s s' : string) : Prop :=
  exists pre post,
    list_ascii_of_string s = pre ++ list_ascii_of_string s' ++ post
    /\ Forall (fun c => isspace c = true) pre
    /\ Forall (fun c => isspace c = true) post
    /\ (forall c, head (list_ascii_of_string s') = Some c -> isspace c = false)
    /\ (forall c, last (list_ascii_of_string s') = Some c -> isspace c = false).

(** What [clean_cost] makes of the characters it keeps from a text. *)
Definition cost_of_kept (kept : list chr) : result f64 :=
  if negb (existsb isdigit kept) then Ok np_nan
  else try_except_ValueError (py_float (string_of_list_ascii kept))
                             (Ok np_nan).

(** The number of decimal points of a text. *)
Definition count_points (s : string) : nat :=
  length (List.filter (fun c => Ascii.eqb c ".") (list_ascii_of_string s)).

(** A decimal literal without sign or exponent: digits, then possibly a
    point and digits, with at least one digit in all. *)
Definition read_plain (l : list chr) : result f64 :=
  let '(ip, s2) := digit_run l in
  let '(fp, s3) :=
    match s2 with
    | c :: r => if Ascii.eqb c "." then digit_run r else ([], s2)
    | [] => ([], [])
    end in
  match ip ++ fp, s3 with
  | _ :: _, [] =>
      Ok (of_decimal false (N_of_digits (ip ++ fp)) (0 - Z.of_nat (length fp)))
  | _, _ => Raise ValueError
  end.

(* ================================================================= *)
(** * Properties *)

(** ** The models of [float] and [str] on known values *)

(** Decimal literals read by [of_decimal] agree with the kernel's own
    reading of the same literals, also at the ends of the range. *)
Example of_decimal_literals :
  of_decimal false 12345 (-2) = lit 123.45
  /\ of_decimal false 1 (-1) = lit 0.1
  /\ of_decimal false 1 23 = lit 1e23
  /\ of_decimal false 9007199254740993 0 = lit 9007199254740992
  /\ of_decimal false 5 (-324) = lit 5e-324
  /\ of_decimal false 2 (-324) = lit 0
  /\ of_decimal false 17976931348623157 292 = lit 1.7976931348623157e308
  /\ of_decimal false 1 309 = f_inf.
Proof. repeat apply conj; vm_compute; reflexivity. Qed.

Example py_float_values :
  py_float "123.45" = Ok (lit 123.45)
  /\ py_float " 1_000.5e-1 " = Ok (lit 100.05)
  /\ py_float "-inf" = Ok (S754_infinity true)
  /\ py_float "NaN" = Ok np_nan
  /\ py_float "1." = Ok (lit 1)
  /\ py_float ".5" = Ok (lit 0.5)
  /\ py_float "" = Raise ValueError
  /\ py_float "." = Raise ValueError
  /\ py_float "1.2.3" = Raise ValueError
  /\ py_float "1e" = Raise ValueError
  /\ py_float "1__0" = Raise ValueError
  /\ py_float "12abc" = Raise ValueError.
Proof. repeat apply conj; vm_compute; reflexivity. Qed.

Example str_of_float_values :
  str_of_float
    <$> [lit 42.5; lit 0.1; lit 100; lit 1e22; lit 1e16;
         lit 1234567890123456; lit 1e-5; lit 0.0001;
         lit 123456789012345680; lit 5e-324;
         lit 1.7976931348623157e308; lit 0.30000000000000004;
         lit (-3.25); np_nan; f_inf]
  = ["42.5"; "0.1"; "100.0"; "1e+22"; "1e+16";
     "1234567890123456.0"; "1e-05"; "0.0001";
     "1.2345678901234568e+17"; "5e-324";
     "1.7976931348623157e+308"; "0.30000000000000004";
     "-3.25"; "nan"; "inf"]%string.
Proof. vm_compute. reflexivity. Qed.

(** What [str] writes, [float] reads back. *)
Example str_of_float_reads_back :
  Forall (fun x => py_float (str_of_float x) = Ok x)
    [lit 42.5; lit 0.1; lit 1e22; lit 1e-5; lit 123.45;
     lit 123456789012345680; lit 5e-324; lit 1.7976931348623157e308;
     lit (-3.25); lit 0; f_inf].
Proof.
  repeat (apply List.Forall_cons; [vm_compute; reflexivity |]).
  apply List.Forall_nil.
Qed.

(** A numeric cost cell goes through [str]: a number written in
    scientific notation loses its exponent mark. *)
Example clean_cost_of_numbers :
  clean_cost (PyInt 80) = Ok (lit 80)
  /\ clean_cost (PyInt (-5)) = Ok (lit 5)
  /\ clean_cost (PyFloat (lit (-3.25))) = Ok (lit 3.25)
  /\ clean_cost (PyFloat (lit 1e-7)) = Ok (lit 107)
  /\ clean_cost (PyFloat f_inf) = Ok np_nan.
Proof. repeat apply conj; vm_compute; reflexivity. Qed.

Example to_numeric_values :
  to_numeric_coerce
    <$> [PyStr "150"; PyStr " 150 "; PyStr "-30"; PyStr "1e3"; PyStr "12.5";
         PyStr "inf"; PyStr "150 pcs"; PyStr "1e"; PyStr "";
         PyNone; PyInt 7; PyFloat (lit 2.5)]
  = [lit 150; lit 150; lit (-30); lit 1000; lit 12.5;
     f_inf; np_nan; np_nan; np_nan; np_nan; lit 7; lit 2.5].
Proof. vm_compute. reflexivity. Qed.

(** ** Rounding keeps the sign *)

Section Rounding.

Lemma iter_pos_invariant {A} (P : A -> Prop) (f : A -> A) :
  (forall x, P x -> P (f x)) ->
  forall p x, P x -> P (SpecFloat.iter_pos f p x).
Proof.
  intros Hf. induction p as [p IH | p IH |]; intros x Hx; simpl; auto.
Qed.

Lemma shr_1_nonneg mrs : 0 <= shr_m mrs -> 0 <= shr_m (shr_1 mrs).
Proof.
  destruct mrs as [m r s]. simpl.
  destruct m as [| [q | q |] | [q | q |]]; simpl; lia.
Qed.

Lemma shr_record_of_loc_m m l : shr_m (shr_record_of_loc m l) = m.
Proof. destruct l as [| []]; reflexivity. Qed.

Lemma shr_fexp_nonneg m e l mrs e' :
  0 <= m -> shr_fexp prec emax m e l = (mrs, e') -> 0 <= shr_m mrs.
Proof.
  intros Hm. unfold shr_fexp, shr.
  destruct (_ - e) as [| p | p]; intros [= <- <-];
    try (rewrite shr_record_of_loc_m; exact Hm).
  apply iter_pos_invariant; [apply shr_1_nonneg |].
  rewrite shr_record_of_loc_m. exact Hm.
Qed.

Lemma round_nearest_even_nonneg m l : 0 <= m -> 0 <= round_nearest_even m l.
Proof.
  intros Hm. unfold round_nearest_even.
  destruct l as [| []]; try lia. destruct (Z.even m); lia.
Qed.

Lemma binary_round_aux_signed s m e l :
  0 <= m -> signed_as s (binary_round_aux prec emax s m e l).
Proof.
  intros Hm. unfold binary_round_aux.
  destruct (shr_fexp prec emax m e l) as [mrs1 e1] eqn:E1.
  apply shr_fexp_nonneg in E1; [| exact Hm].
  destruct (shr_fexp prec emax _ e1 loc_Exact) as [mrs2 e2] eqn:E2.
  apply shr_fexp_nonneg in E2; [| by apply round_nearest_even_nonneg].
  destruct (shr_m mrs2) as [| q | q]; [constructor | | lia].
  destruct (e2 <=? _); constructor.
Qed.

Lemma binary_round_signed s m e :
  signed_as s (binary_round prec emax s m e).
Proof.
  unfold binary_round. destruct (shl_align _ _ _) as [mz ez].
  apply binary_round_aux_signed. lia.
Qed.

End Rounding.

(** ** Signs of sums, quotients and decimal literals *)

Section Signs.

Lemma signed_nonneg x : signed_as false x -> nonneg x = true.
Proof. intros []; reflexivity. Qed.

Lemma signed_not_nan s x : signed_as s x -> is_nan x = false.
Proof. intros []; reflexivity. Qed.

Lemma nonneg_inv x :
  nonneg x = true -> x = S754_zero true \/ signed_as false x.
Proof.
  destruct x as [[] | [] | | [] m e]; cbn; intros H;
    try discriminate; auto using signed_as.
Qed.

Lemma nonneg_not_nan x : nonneg x = true -> is_nan x = false.
Proof. destruct x; cbn; congruence. Qed.

Lemma fdiv_finite_signed sx mx ex sy my ey :
  signed_as (xorb sx sy)
    (fdiv (S754_finite sx mx ex) (S754_finite sy my ey)).
Proof.
  unfold fdiv, SFdiv, SFdiv_core_binary.
  set (s := _ - _ - _).
  set (m' := match s with Z0 => _ | Z.pos _ => _ | Z.neg _ => _ end).
  assert (Hm' : 0 <= m').
  { subst m'. destruct s; try lia. apply Z.shiftl_nonneg. lia. }
  pose proof (Z.div_pos m' (Z.pos my) Hm' ltac:(lia)) as Hq.
  unfold Z.div in Hq. destruct (Z.div_eucl m' (Z.pos my)) as [q r].
  apply binary_round_aux_signed. exact Hq.
Qed.

Lemma of_decimal_signed neg m e10 : signed_as neg (of_decimal neg m e10).
Proof.
  unfold of_decimal. destruct m as [| p]; [constructor |].
  destruct (0 <=? e10).
  - apply binary_round_signed.
  - replace neg with (xorb neg false) at 1 by apply xorb_false_r.
    apply fdiv_finite_signed.
Qed.

Lemma fadd_nonneg x y :
  nonneg x = true -> nonneg y = true -> nonneg (fadd x y) = true.
Proof.
  intros Hx Hy.
  destruct (nonneg_inv x Hx) as [-> | Sx], (nonneg_inv y Hy) as [-> | Sy];
    try reflexivity.
  - destruct Sy; reflexivity.
  - destruct Sx; reflexivity.
  - destruct Sx as [| | mx ex], Sy as [| | my ey]; try reflexivity.
    apply signed_nonneg. cbn -[shl_align Z.add Z.min].
    apply binary_round_signed.
Qed.

Lemma fdiv_two_nonneg x : nonneg x = true -> nonneg (fdiv x f_two) = true.
Proof.
  intros Hx. destruct (nonneg_inv x Hx) as [-> | Sx]; [reflexivity |].
  destruct Sx as [| | mx ex]; try reflexivity.
  apply signed_nonneg.
  change f_two with (S754_finite false 4503599627370496 (-51)).
  apply (fdiv_finite_signed false mx ex false).
Qed.

End Signs.

(** ** The cost parser *)

Section CostParser.

Lemma Forall_lstrip (P : chr -> Prop) s : Forall P s -> Forall P (lstrip s).
Proof.
  induction 1 as [| c s Hc Hs IH]; simpl; [constructor |].
  destruct (isspace c); [exact IH | by constructor].
Qed.

Lemma Forall_rstrip (P : chr -> Prop) s : Forall P s -> Forall P (rstrip s).
Proof.
  intros H. unfold rstrip. apply Forall_rev, Forall_lstrip, Forall_rev, H.
Qed.

Lemma read_sign_no_minus s :
  Forall (fun c => Ascii.eqb c "-" = false) s -> (read_sign s).1 = false.
Proof.
  destruct 1 as [| c r Hc _]; simpl; [reflexivity |].
  rewrite Hc. destruct (Ascii.eqb c "+"); reflexivity.
Qed.

(** [float(s)] never yields a negative number when [s] has no minus
    sign. *)
Lemma py_float_no_minus s x :
  Forall (fun c => Ascii.eqb c "-" = false) (list_ascii_of_string s) ->
  py_float s = Ok x ->
  is_nan x = true \/ signed_as false x.
Proof.
  intros Hs. unfold py_float.
  set (s0 := rstrip (lstrip (list_ascii_of_string s))).
  assert (H0 : (read_sign s0).1 = false).
  { apply read_sign_no_minus, Forall_rstrip, Forall_lstrip, Hs. }
  destruct (read_sign s0) as [neg s1]. simpl in H0. subst neg.
  destruct (_ || _).
  { intros [= <-]. right. constructor. }
  destruct (String.eqb _ "nan").
  { intros [= <-]. by left. }
  destruct (digitpart s1) as [ip s2].
  destruct (match s2 with [] => _ | _ :: _ => _ end) as [fp s3].
  destruct (ip ++ fp) as [| d ds]; [discriminate |].
  destruct (read_exponent s3) as [[e [| c r]] |]; try discriminate.
  intros [= <-]. right. apply of_decimal_signed.
Qed.

Lemma cleaned_no_minus s :
  Forall (fun c => Ascii.eqb c "-" = false)
    (list_ascii_of_string (re_sub_non_digit_dot s)).
Proof.
  unfold re_sub_non_digit_dot. rewrite list_ascii_of_string_of_list_ascii.
  apply List.Forall_forall. intros c Hc.
  apply List.filter_In in Hc as [_ Hc].
  destruct (Ascii.eqb_spec c "-") as [-> |]; [discriminate | reflexivity].
Qed.

(** [clean_cost] returns on every cell, and what it returns is NaN, or
    a float with a positive sign. *)
Lemma clean_cost_total value :
  exists x, clean_cost value = Ok x /\
            (is_nan x = true \/ signed_as false x).
Proof.
  unfold clean_cost.
  destruct (pd_isna value); [by exists np_nan; auto |].
  destruct (negb _); [by exists np_nan; auto |].
  destruct (py_float _) as [x | []] eqn:E; simpl.
  - exists x. split; [reflexivity |].
    eapply py_float_no_minus; [apply cleaned_no_minus | exact E].
  - exists np_nan. auto.
Qed.

Lemma clean_cost_parsed value : clean_cost value = Ok (parsed_cost value).
Proof.
  unfold parsed_cost.
  destruct (clean_cost_total value) as (x & -> & _). reflexivity.
Qed.

Lemma parsed_cost_sign value :
  is_nan (parsed_cost value) = true \/ nonneg (parsed_cost value) = true.
Proof.
  unfold parsed_cost.
  destruct (clean_cost_total value) as (x & -> & [H | H]); auto.
  right. by apply signed_nonneg.
Qed.

Lemma apply_clean_cost col : apply clean_cost col = Ok (parsed_cost <$> col).
Proof.
  induction col as [| v col IH]; [reflexivity |].
  cbn [apply]. rewrite clean_cost_parsed, IH. reflexivity.
Qed.

End CostParser.

(** ** Column lemmas *)

Section Columns.

Lemma zip_with_fmap_same {A B C D} (f : B -> C -> D) (g : A -> B)
    (h : A -> C) (l : list A) :
  zip_with f (g <$> l) (h <$> l) = (fun a => f (g a) (h a)) <$> l.
Proof. induction l as [| a l IH]; csimpl; [reflexivity | by rewrite IH]. Qed.

Lemma group_of_fmap {A} (f : A -> string) (g : A -> f64) (l : list A) k :
  group_of (f <$> l) (g <$> l) k
  = g <$> List.filter (fun a => String.eqb (f a) k) l.
Proof.
  unfold group_of. induction l as [| a l IH]; csimpl; [reflexivity |].
  destruct (String.eqb (f a) k); csimpl; by rewrite IH.
Qed.

(** A row finds its own cell at its place in its group. *)
Lemma group_of_lookup keys : forall col i k v,
  keys !! i = Some k -> col !! i = Some v ->
  group_of keys col k !! length (group_of (take i keys) (take i col) k)
  = Some v.
Proof.
  unfold group_of.
  induction keys as [| k0 keys IH]; intros [| v0 col] [| i] k v Hk Hv;
    try discriminate; csimpl in *.
  - injection Hk as ->. injection Hv as ->.
    rewrite String.eqb_refl. reflexivity.
  - destruct (String.eqb k0 k); csimpl; by apply IH.
Qed.

Lemma groupby_transform_fillna keys col :
  length keys = length col ->
  groupby_transform keys col (fun x => fillna x (median x))
  = zip_with (fun k v => fill (median (group_of keys col k)) v) keys col.
Proof.
  intros Hlen. apply list_eq. intros i.
  unfold groupby_transform. rewrite list_lookup_imap, lookup_zip_with.
  destruct (keys !! i) as [k |] eqn:Hk; [| reflexivity]. simpl.
  destruct (col !! i) as [v |] eqn:Hv.
  - unfold fillna. rewrite list_lookup_fmap.
    rewrite (group_of_lookup keys col i k v Hk Hv). reflexivity.
  - apply lookup_lt_Some in Hk. apply lookup_ge_None in Hv. lia.
Qed.

Lemma loc_assign_series_lt col v w :
  loc_assign (series_lt col v) col w
  = (fun x => if fltb x v then w else x) <$> col.
Proof.
  unfold loc_assign, series_lt.
  induction col as [| x col IH]; csimpl; [reflexivity | by rewrite IH].
Qed.

End Columns.

(** ** The pipeline, record by record *)

Section RowWise.

Lemma tier1_column (t : list Raw.row) :
  groupby_transform (category_of <$> t) (cost_of <$> t)
    (fun x => fillna x (median x))
  = tier1_cost t <$> t.
Proof.
  rewrite groupby_transform_fillna by (by rewrite !length_fmap).
  rewrite zip_with_fmap_same. apply list_fmap_ext. intros i r _.
  unfold tier1_cost, category_costs. by rewrite group_of_fmap.
Qed.

(** Every column of the result is the image of the input records under
    a function of the record and, for the cost, of the whole table. *)
Lemma clean_supply_chain_data_rowwise (t : list Raw.row) :
  clean_supply_chain_data t = Ok {|
    Clean.Product_ID := (fun r => str_strip (Raw.Product_ID r)) <$> t;
    Clean.Category := category_of <$> t;
    Clean.Unit_Cost := tier2_cost t <$> t;
    Clean.Current_Stock :=
      (fun r => cleaned_stock (Raw.Current_Stock_Raw r)) <$> t;
    Clean.Daily_Demand_Est :=
      (fun r => clip f_zero (Raw.Daily_Demand_Est r)) <$> t;
    Clean.Safety_Stock_Target :=
      (fun r => clip f_zero (Raw.Safety_Stock_Target r)) <$> t;
    Clean.Vendor_Name := (fun r => str_strip (Raw.Vendor_Name r)) <$> t;
    Clean.Lead_Time_Days :=
      (fun r => clip f_one (Raw.Lead_Time_Days r)) <$> t;
    Clean.Reorder_Point := reorder_point_of <$> t;
    Clean.Stock_Status :=
      (fun r => stock_status (cleaned_stock (Raw.Current_Stock_Raw r))
                             (reorder_point_of r)) <$> t;
    Clean.Inventory_Value :=
      (fun r => fmul (cleaned_stock (Raw.Current_Stock_Raw r))
                     (tier2_cost t r)) <$> t
  |}.
Proof.
  unfold clean_supply_chain_data.
  rewrite apply_clean_cost. cbn [mbind result_bind].
  assert (Hcat : str_capitalize <$> (str_strip <$> (Raw.Category <$> t))
                 = category_of <$> t).
  { rewrite <- !list_fmap_compose. reflexivity. }
  assert (Hcost : parsed_cost <$> (Raw.Unit_Cost_Raw <$> t) = cost_of <$> t).
  { rewrite <- list_fmap_compose. reflexivity. }
  assert (Hstock :
    fillna (loc_assign
              (series_lt (to_numeric_coerce <$> (Raw.Current_Stock_Raw <$> t))
                         f_zero)
              (to_numeric_coerce <$> (Raw.Current_Stock_Raw <$> t)) f_zero)
           f_zero
    = (fun r => cleaned_stock (Raw.Current_Stock_Raw r)) <$> t).
  { rewrite loc_assign_series_lt. unfold fillna.
    rewrite <- !list_fmap_compose. reflexivity. }
  assert (Hcost2 :
    fillna (groupby_transform (category_of <$> t) (cost_of <$> t)
              (fun x => fillna x (median x)))
           (median (groupby_transform (category_of <$> t) (cost_of <$> t)
                      (fun x => fillna x (median x))))
    = tier2_cost t <$> t).
  { rewrite tier1_column. unfold fillna.
    rewrite <- list_fmap_compose. reflexivity. }
  rewrite Hcat, Hcost, Hstock, Hcost2.
  unfold clip_lower, series_add, series_mul.
  rewrite <- !list_fmap_compose, !zip_with_fmap_same. reflexivity.
Qed.

End RowWise.

(** ** The median *)

Section Median.

Lemma filter_notna_idem col :
  List.filter notna (List.filter notna col) = List.filter notna col.
Proof.
  induction col as [| x col IH]; simpl; [reflexivity |].
  destruct (notna x) eqn:E; simpl; [rewrite E; f_equal |]; exact IH.
Qed.

(** The median only looks at the cells that are present. *)
Lemma median_filter col : median (List.filter notna col) = median col.
Proof. unfold median. by rewrite filter_notna_idem. Qed.

Lemma sorted_cells_length col :
  length (merge_sort (fun x y : f64 => fleb x y) (List.filter notna col))
  = length (List.filter notna col).
Proof. apply Permutation_length, merge_sort_Permutation. Qed.

Lemma sorted_cells_elem col x :
  x ∈ merge_sort (fun x y : f64 => fleb x y) (List.filter notna col) ->
  x ∈ col /\ is_nan x = false.
Proof.
  rewrite merge_sort_Permutation, list_elem_of_In, List.filter_In.
  rewrite <- list_elem_of_In. unfold notna.
  intros [Hx Hn]. split; [exact Hx |]. by destruct (is_nan x).
Qed.

Lemma median_all_nan col :
  Forall (fun x => is_nan x = true) col -> median col = np_nan.
Proof.
  intros H. unfold median. rewrite sorted_cells_length.
  replace (List.filter notna col) with (@nil f64); [reflexivity |].
  induction H as [| x col Hx _ IH]; simpl; [reflexivity |].
  unfold notna at 1. by rewrite Hx.
Qed.

Lemma median_nonneg col :
  (forall x, x ∈ col -> is_nan x = false -> nonneg x = true) ->
  (exists x, x ∈ col /\ is_nan x = false) ->
  nonneg (median col) = true.
Proof.
  intros Hall (x0 & Hx0 & Hn0). unfold median.
  set (xs := merge_sort _ _).
  assert (Hxs : forall y, y ∈ xs -> nonneg y = true).
  { intros y Hy. apply sorted_cells_elem in Hy as [? ?]. auto. }
  assert (Hpos : (0 < length xs)%nat).
  { subst xs. rewrite sorted_cells_length.
    assert (Hin : In x0 (List.filter notna col)).
    { apply List.filter_In. split; [by apply list_elem_of_In |].
      unfold notna. by rewrite Hn0. }
    destruct (List.filter notna col); [destruct Hin | simpl; lia]. }
  assert (Hget : forall i, (i < length xs)%nat ->
                 nonneg (default np_nan (xs !! i)) = true).
  { intros i Hi. destruct (lookup_lt_is_Some_2 xs i Hi) as [y Hy].
    rewrite Hy. simpl. eapply Hxs, list_elem_of_lookup_2, Hy. }
  destruct (length xs) as [| n] eqn:En; [lia |].
  assert (Hhalf : (S n / 2 < S n)%nat) by (apply Nat.div_lt; lia).
  destruct (Nat.odd (S n)).
  - by apply Hget.
  - apply fdiv_two_nonneg, fadd_nonneg; apply Hget; lia.
Qed.

(** Over cells that are missing or non-negative, the median is missing
    or non-negative. *)
Lemma median_sign col :
  (forall x, x ∈ col -> is_nan x = false -> nonneg x = true) ->
  is_nan (median col) = true \/ nonneg (median col) = true.
Proof.
  intros Hall.
  destruct (decide (Forall (fun x => is_nan x = true) col)) as [H | H].
  - left. by rewrite median_all_nan.
  - right. apply median_nonneg; [exact Hall |].
    apply not_Forall_Exists in H; [| intros x; apply _].
    apply Exists_exists in H as (x & Hx & Hn).
    exists x. split; [exact Hx |].
    destruct (is_nan x) eqn:E; [by destruct Hn | reflexivity].
Qed.

End Median.

(** ** Imputation of the missing costs *)

Section Imputation.

Variable t : list Raw.row.

Lemma cost_of_sign r :
  is_nan (cost_of r) = true \/ nonneg (cost_of r) = true.
Proof. apply parsed_cost_sign. Qed.

Lemma category_costs_elem k x :
  x ∈ category_costs t k <->
  exists r, r ∈ t /\ category_of r = k /\ cost_of r = x.
Proof.
  unfold category_costs. rewrite list_elem_of_fmap. split.
  - intros (r & -> & Hr). apply list_elem_of_In, List.filter_In in Hr.
    destruct Hr as [Hr Hk]. apply String.eqb_eq in Hk.
    exists r. by rewrite list_elem_of_In.
  - intros (r & Hr & Hk & <-). exists r. split; [reflexivity |].
    apply list_elem_of_In, List.filter_In. split.
    + by apply list_elem_of_In.
    + by apply String.eqb_eq.
Qed.

Lemma category_costs_sign k x :
  x ∈ category_costs t k -> is_nan x = false -> nonneg x = true.
Proof.
  intros (r & _ & _ & <-)%category_costs_elem Hx.
  destruct (cost_of_sign r) as [H | H]; congruence.
Qed.

(** A parsed cost is kept by both passes. *)
Lemma tier1_cost_keeps r :
  is_nan (cost_of r) = false -> tier1_cost t r = cost_of r.
Proof. intros H. unfold tier1_cost, fill. by rewrite H. Qed.

Lemma tier1_cost_missing r :
  is_nan (cost_of r) = true ->
  tier1_cost t r = median (category_costs t (category_of r)).
Proof. intros H. unfold tier1_cost, fill. by rewrite H. Qed.

Lemma tier1_cost_sign r :
  is_nan (tier1_cost t r) = true \/ nonneg (tier1_cost t r) = true.
Proof.
  destruct (is_nan (cost_of r)) eqn:E.
  - rewrite tier1_cost_missing by exact E.
    apply median_sign, category_costs_sign.
  - rewrite tier1_cost_keeps by exact E.
    destruct (cost_of_sign r); [congruence | by right].
Qed.

(** The median of a category that has a parsed cost is a number. *)
Lemma category_median_nonneg r r' :
  r' ∈ t -> category_of r' = category_of r -> is_nan (cost_of r') = false ->
  nonneg (median (category_costs t (category_of r))) = true.
Proof.
  intros Hin Hk Hc. apply median_nonneg; [apply category_costs_sign |].
  exists (cost_of r'). split; [| exact Hc].
  apply category_costs_elem. by exists r'.
Qed.

(** The median of a category without any parsed cost is missing. *)
Lemma category_median_missing k :
  (forall r', r' ∈ t -> category_of r' = k -> is_nan (cost_of r') = true) ->
  median (category_costs t k) = np_nan.
Proof.
  intros H. apply median_all_nan, Forall_forall.
  intros x (r' & Hin & Hk & <-)%category_costs_elem. by apply H.
Qed.

Lemma tier1_column_sign x :
  x ∈ tier1_cost t <$> t -> is_nan x = false -> nonneg x = true.
Proof.
  intros (r & -> & _)%list_elem_of_fmap Hx.
  destruct (tier1_cost_sign r); congruence.
Qed.

(** As soon as one cost of the table parses, the global median is a
    number, and so is every cost after the second pass. *)
Lemma global_median_nonneg r' :
  r' ∈ t -> is_nan (cost_of r') = false ->
  nonneg (median (tier1_cost t <$> t)) = true.
Proof.
  intros Hin Hc. apply median_nonneg; [apply tier1_column_sign |].
  exists (tier1_cost t r'). split.
  - apply list_elem_of_fmap. by exists r'.
  - by rewrite tier1_cost_keeps.
Qed.

Lemma tier2_cost_nonneg r r' :
  r' ∈ t -> is_nan (cost_of r') = false -> nonneg (tier2_cost t r) = true.
Proof.
  intros Hin Hc. unfold tier2_cost, fill.
  destruct (is_nan (tier1_cost t r)) eqn:E.
  - by apply (global_median_nonneg r').
  - destruct (tier1_cost_sign r); congruence.
Qed.

Lemma tier2_cost_all_missing r :
  (forall r', r' ∈ t -> is_nan (cost_of r') = true) ->
  r ∈ t -> tier2_cost t r = np_nan.
Proof.
  intros Hall Hr.
  assert (H1 : forall r', r' ∈ t -> tier1_cost t r' = np_nan).
  { intros r' Hr'. rewrite tier1_cost_missing by auto.
    apply category_median_missing. auto. }
  unfold tier2_cost, fill. rewrite (H1 r Hr). simpl.
  apply median_all_nan, Forall_forall.
  intros x (r' & -> & Hr')%list_elem_of_fmap. by rewrite H1.
Qed.

End Imputation.

(** ** The cost parser: claims *)

(** C3.  The cost parser maps a null to null and a text without any digit
    to null; otherwise it keeps exactly the digits and decimal points of
    the text, in order, and parses them as a float (null when they do not
    form a float).  So ["$123.45"] gives 123.45, ["USD 80.00"] gives 80.0,
    ["1,200.00"] gives 1200.0, ["Quote Pending"] and [None] give null, and
    the number 42.5 gives 42.5. *)
Theorem clean_cost_parses :
  (forall value, pd_isna value = true -> clean_cost value = Ok np_nan)
  /\ (forall value,
        pd_isna value = false ->
        any_isdigit (str_strip (py_str value)) = false ->
        clean_cost value = Ok np_nan)
  /\ (forall value,
        pd_isna value = false ->
        any_isdigit (str_strip (py_str value)) = true ->
        clean_cost value =
          match
            py_float
              (string_of_list_ascii
                 (List.filter (fun c => isdigit c || Ascii.eqb c ".")
                    (list_ascii_of_string (str_strip (py_str value)))))
          with
          | Ok x => Ok x
          | Raise _ => Ok np_nan
          end)
  /\ clean_cost (PyStr "$123.45") = Ok (lit 123.45)
  /\ clean_cost (PyStr "USD 80.00") = Ok (lit 80.0)
  /\ clean_cost (PyStr "1,200.00") = Ok (lit 1200.0)
  /\ clean_cost (PyStr "Quote Pending") = Ok np_nan
  /\ clean_cost PyNone = Ok np_nan
  /\ clean_cost (PyFloat (lit 42.5)) = Ok (lit 42.5).
Proof.
  split; [| split; [| split]].
  - intros value H. unfold clean_cost. by rewrite H.
  - intros value H1 H2. unfold clean_cost. by rewrite H1, H2.
  - intros value H1 H2. unfold clean_cost. rewrite H1, H2. simpl.
    unfold re_sub_non_digit_dot, digit_or_dot.
    destruct (py_float _) as [x | []]; reflexivity.
  - repeat apply conj; vm_compute; reflexivity.
Qed.



(** ** The stock parser *)

Section StockParser.

Ltac each_char c :=
  destruct c as [[] [] [] [] [] [] [] []]; try discriminate; try reflexivity.

Lemma blank_numeric c : isspace_c c = true -> numeric_char c = true.
Proof. intros H. unfold numeric_char. by rewrite H. Qed.

Lemma digit_numeric c : isdigit c = true -> numeric_char c = true.
Proof. each_char c. Qed.

Lemma lower_numeric c :
  existsb (Ascii.eqb (lower c))
    (list_ascii_of_string "0123456789+-.eainfty") = true ->
  numeric_char c = true.
Proof. intros H. unfold numeric_char. rewrite H. apply orb_true_r. Qed.

Lemma skip_blanks_back s :
  Forall (fun c => numeric_char c = true) (skip_blanks s) ->
  Forall (fun c => numeric_char c = true) s.
Proof.
  induction s as [| c s IH]; simpl; [auto |].
  destruct (isspace_c c) eqn:E; [| auto].
  intros H. constructor; [by apply blank_numeric | auto].
Qed.

Lemma read_sign_back s :
  Forall (fun c => numeric_char c = true) (read_sign s).2 ->
  Forall (fun c => numeric_char c = true) s.
Proof.
  destruct s as [| c s]; simpl; [auto |].
  destruct (Ascii.eqb_spec c "-") as [-> |]; simpl.
  { intros H. by constructor. }
  destruct (Ascii.eqb_spec c "+") as [-> |]; simpl; [| auto].
  intros H. by constructor.
Qed.

Lemma digit_run_back s :
  Forall (fun c => numeric_char c = true) (digit_run s).2 ->
  Forall (fun c => numeric_char c = true) s.
Proof.
  induction s as [| c s IH]; simpl; [auto |].
  destruct (isdigit c) eqn:E; [| auto].
  destruct (digit_run s) as [ds r]. simpl in *.
  intros H. constructor; [by apply digit_numeric | auto].
Qed.

Lemma read_exponent_c_back s :
  Forall (fun c => numeric_char c = true) (read_exponent_c s).2 ->
  Forall (fun c => numeric_char c = true) s.
Proof.
  destruct s as [| c s]; simpl; [auto |].
  destruct (Ascii.eqb_spec (lower c) "e") as [E |]; [| auto].
  pose proof (read_sign_back s) as Hs.
  destruct (read_sign s) as [eneg r1]. simpl in Hs.
  pose proof (digit_run_back r1) as Hd.
  destruct (digit_run r1) as [[| d ds] r2]; simpl in *; [auto |].
  intros H. constructor; [| auto].
  apply lower_numeric. rewrite E. reflexivity.
Qed.

Lemma strtod_chars s x :
  strtod s = Some x -> Forall (fun c => numeric_char c = true) s.
Proof.
  unfold strtod. intros H.
  apply skip_blanks_back, read_sign_back.
  destruct (read_sign (skip_blanks s)) as [neg s1]. simpl.
  apply digit_run_back.
  destruct (digit_run s1) as [ip s2]. simpl.
  assert (Hfrac : forall fp s3,
    match s2 with
    | [] => ([], [])
    | c :: r => if Ascii.eqb c "." then digit_run r else ([], s2)
    end = (fp, s3) ->
    Forall (fun c => numeric_char c = true) s3 ->
    Forall (fun c => numeric_char c = true) s2).
  { intros fp s3. destruct s2 as [| c r]; [by intros [= <- <-] |].
    destruct (Ascii.eqb_spec c ".") as [-> |]; [| by intros [= <- <-]].
    intros E H3. constructor; [reflexivity |].
    apply digit_run_back. by rewrite E. }
  destruct (match s2 with [] => _ | _ :: _ => _ end) as [fp s3].
  apply (Hfrac fp s3 eq_refl).
  destruct (ip ++ fp); [discriminate |].
  apply read_exponent_c_back.
  destruct (read_exponent_c s3) as [e s4]. simpl.
  apply skip_blanks_back.
  destruct (skip_blanks s4); [constructor | discriminate].
Qed.

Lemma name_chars s1 (name : string) :
  string_of_list_ascii (map lower s1) = name ->
  forallb (fun c => existsb (Ascii.eqb c)
                      (list_ascii_of_string "0123456789+-.eainfty"))
          (list_ascii_of_string name) = true ->
  Forall (fun c => numeric_char c = true) s1.
Proof.
  intros <-. rewrite list_ascii_of_string_of_list_ascii.
  rewrite List.forallb_forall. intros H.
  apply List.Forall_forall. intros c Hc.
  apply lower_numeric, H, List.in_map, Hc.
Qed.

Lemma special_name_chars s x :
  special_name s = Some x -> Forall (fun c => numeric_char c = true) s.
Proof.
  unfold special_name. intros H. apply read_sign_back.
  destruct (read_sign s) as [neg s1]. simpl.
  destruct (String.eqb_spec (string_of_list_ascii (map lower s1)) "nan")
    as [E |]; [by eapply name_chars |].
  destruct (String.eqb_spec (string_of_list_ascii (map lower s1)) "inf")
    as [E |]; [by eapply name_chars |].
  destruct
    (String.eqb_spec (string_of_list_ascii (map lower s1)) "infinity")
    as [E |]; [by eapply name_chars | discriminate].
Qed.

(** A text with a character that cannot be part of a number is coerced
    to NaN. *)
Lemma to_numeric_str_foreign s :
  existsb (fun c => negb (numeric_char c)) (list_ascii_of_string s) = true ->
  to_numeric_str s = np_nan.
Proof.
  intros H. apply List.existsb_exists in H as (c & Hc & Hn).
  assert (Hno : ~ Forall (fun c => numeric_char c = true)
                    (list_ascii_of_string s)).
  { intros HF. rewrite List.Forall_forall in HF.
    rewrite (HF c Hc) in Hn. discriminate. }
  unfold to_numeric_str.
  destruct (strtod _) as [x |] eqn:E1.
  { destruct Hno. by eapply strtod_chars. }
  destruct (special_name _) as [x |] eqn:E2; [| reflexivity].
  destruct Hno. by eapply special_name_chars.
Qed.

Lemma digit_not_blank c : isdigit c = true -> isspace_c c = false.
Proof. each_char c. Qed.

Lemma digit_not_sign c :
  isdigit c = true -> Ascii.eqb c "-" = false /\ Ascii.eqb c "+" = false.
Proof. each_char c; intros _; split; reflexivity. Qed.

Lemma digit_run_all ds : forallb isdigit ds = true -> digit_run ds = (ds, []).
Proof.
  induction ds as [| c ds IH]; simpl; [reflexivity |].
  intros [Hc Hds]%andb_prop. rewrite Hc, (IH Hds). reflexivity.
Qed.

Lemma of_decimal_integer n : of_decimal false n 0 = f_of_Z (Z.of_N n).
Proof.
  destruct n as [| p]; [reflexivity |].
  unfold of_decimal, f_of_Z. simpl. by rewrite Pos.mul_1_r.
Qed.

(** A cell made of digits only reads as the integer they write. *)
Lemma strtod_digits ds :
  ds <> [] -> forallb isdigit ds = true ->
  strtod ds = Some (f_of_Z (Z.of_N (N_of_digits ds))).
Proof.
  intros Hne Hds. rewrite <- of_decimal_integer.
  destruct ds as [| c ds]; [done |].
  pose proof Hds as [Hc _]%andb_prop.
  unfold strtod. cbn [skip_blanks]. rewrite (digit_not_blank c Hc).
  cbn [read_sign]. destruct (digit_not_sign c Hc) as [-> ->].
  rewrite (digit_run_all _ Hds). cbn -[of_decimal N_of_digits].
  rewrite app_nil_r. reflexivity.
Qed.

End StockParser.

(** ** The stock parser: content after the digits *)

Section TrailingContent.






End TrailingContent.

(** ** The stock parser: claims *)



(** ** Stock status: claims *)

Section StockStatus.

Lemma fltb_nan_r x : fltb x np_nan = false.
Proof. by destruct x. Qed.

Lemma clip_nan_inv lo x : is_nan lo = false -> is_nan (clip lo x) = true ->
  x = np_nan.
Proof.
  intros Hlo. unfold clip.
  destruct x; simpl; try reflexivity;
    destruct (fleb lo _); simpl; congruence.
Qed.

End StockStatus.

(** C5.  [Stock_Status] is computed for each row from the [Current_Stock]
    and the [Reorder_Point] of that row, in this order: "Out of Stock"
    when [Current_Stock] equals 0; else "Low Stock" when [Current_Stock]
    is below [Reorder_Point]; else "Normal Stock".  A stock of 0 is out of
    stock whatever the reorder point, 5 against 10 is low, 50 against 10
    is normal. *)
Theorem stock_status_priority :
  (forall t, exists out,
     clean_supply_chain_data t = Ok out
     /\ length (Clean.Stock_Status out) = length t
     /\ length (Clean.Current_Stock out) = length t
     /\ length (Clean.Reorder_Point out) = length t
     /\ Clean.Stock_Status out
        = zip_with
            (fun cs rp =>
               if feqb cs (lit 0) then "Out of Stock"%string
               else if fltb cs rp then "Low Stock"%string
               else "Normal Stock"%string)
            (Clean.Current_Stock out) (Clean.Reorder_Point out))
  /\ (forall rp, stock_status (lit 0) rp = "Out of Stock"%string)
  /\ stock_status (lit 5) (lit 10) = "Low Stock"%string
  /\ stock_status (lit 50) (lit 10) = "Normal Stock"%string.
Proof.
  split; [| split; [| split]];
    [| intros rp; vm_compute; reflexivity
     | vm_compute; reflexivity | vm_compute; reflexivity].
  intros t. eexists. split; [apply clean_supply_chain_data_rowwise |].
  cbn [Clean.Stock_Status Clean.Current_Stock Clean.Reorder_Point].
  rewrite !length_fmap, zip_with_fmap_same.
  change (lit 0) with f_zero.
  split; [reflexivity |]. split; [reflexivity |]. split; reflexivity.
Qed.

(** C10.  In every row whose [Daily_Demand_Est] is null after validation,
    [Reorder_Point] is null and [Stock_Status] is "Out of Stock" when
    [Current_Stock] equals 0 and "Normal Stock" otherwise: such a row is
    never "Low Stock". *)
Theorem null_demand_status :
  forall t, exists out,
    clean_supply_chain_data t = Ok out
    /\ forall i d,
         Clean.Daily_Demand_Est out !! i = Some d ->
         is_nan d = true ->
         exists cs,
           Clean.Current_Stock out !! i = Some cs
           /\ Clean.Reorder_Point out !! i = Some np_nan
           /\ Clean.Stock_Status out !! i
              = Some (if feqb cs (lit 0) then "Out of Stock"%string
                      else "Normal Stock"%string)
           /\ Clean.Stock_Status out !! i <> Some "Low Stock"%string.
Proof.
  intros t. eexists. split; [apply clean_supply_chain_data_rowwise |].
  cbn [Clean.Stock_Status Clean.Current_Stock Clean.Reorder_Point
       Clean.Daily_Demand_Est].
  intros i d Hd Hnan. rewrite list_lookup_fmap in Hd.
  destruct (t !! i) as [r |] eqn:Hr; [| discriminate].
  injection Hd as <-. apply clip_nan_inv in Hnan; [| reflexivity].
  assert (Hrp : reorder_point_of r = np_nan).
  { unfold reorder_point_of. rewrite Hnan. reflexivity. }
  exists (cleaned_stock (Raw.Current_Stock_Raw r)).
  rewrite !list_lookup_fmap, Hr. cbn [fmap option_fmap option_map].
  rewrite Hrp. unfold stock_status. rewrite fltb_nan_r.
  change (lit 0) with f_zero.
  split; [reflexivity |]. split; [reflexivity |]. split; [reflexivity |].
  destruct (feqb _ f_zero); discriminate.
Qed.

(** ** Row count: claims *)

(** C9.  The cleaned table has exactly as many rows as the input table:
    each of its eleven columns has the length of the input, so no row is
    deleted or added; and two equal input rows give two equal output rows,
    so duplicates stay in the output in the same number. *)
Theorem row_count_preserved :
  forall t, exists out,
    clean_supply_chain_data t = Ok out
    /\ nrows out = length t
    /\ length (Clean.Product_ID out) = length t
    /\ length (Clean.Category out) = length t
    /\ length (Clean.Unit_Cost out) = length t
    /\ length (Clean.Current_Stock out) = length t
    /\ length (Clean.Daily_Demand_Est out) = length t
    /\ length (Clean.Safety_Stock_Target out) = length t
    /\ length (Clean.Vendor_Name out) = length t
    /\ length (Clean.Lead_Time_Days out) = length t
    /\ length (Clean.Reorder_Point out) = length t
    /\ length (Clean.Stock_Status out) = length t
    /\ length (Clean.Inventory_Value out) = length t
    /\ forall i j, t !! i = t !! j -> record_at out i = record_at out j.
Proof.
  intros t. eexists. split; [apply clean_supply_chain_data_rowwise |].
  unfold nrows, record_at.
  cbn [Clean.Product_ID Clean.Category Clean.Unit_Cost Clean.Current_Stock
       Clean.Daily_Demand_Est Clean.Safety_Stock_Target Clean.Vendor_Name
       Clean.Lead_Time_Days Clean.Reorder_Point Clean.Stock_Status
       Clean.Inventory_Value].
  rewrite !length_fmap.
  do 12 (split; [reflexivity |]).
  intros i j Hij. rewrite !list_lookup_fmap, Hij. reflexivity.
Qed.

(** ** Category normalization: claims *)

Section Category.

Lemma nunique_fmap (f : string -> string) (l : list string) :
  (nunique (f <$> l) <= nunique l)%nat.
Proof.
  unfold nunique.
  rewrite <- (length_fmap f (remove_dups l)).
  apply submseteq_length, NoDup_submseteq; [apply NoDup_remove_dups |].
  intros x Hx. apply elem_of_remove_dups, list_elem_of_fmap in Hx.
  destruct Hx as (y & -> & Hy). apply list_elem_of_fmap.
  exists y. split; [reflexivity | by apply elem_of_remove_dups].
Qed.

Lemma lower_not_upper c : isupper (lower c) = false.
Proof. destruct c as [[] [] [] [] [] [] [] []]; reflexivity. Qed.

Lemma capitalize_tail_lower s :
  Forall (fun c => isupper c = false)
    (tail (list_ascii_of_string (str_capitalize s))).
Proof.
  destruct s as [| c s]; simpl; [constructor |].
  rewrite list_ascii_of_string_of_list_ascii.
  apply List.Forall_forall. intros c' Hc'.
  apply List.in_map_iff in Hc' as (c0 & <- & _). apply lower_not_upper.
Qed.

End Category.

(** C8.  [Category] is trimmed and then capitalized: the first letter is
    put in upper case and it is the only one, every other letter being
    lower-cased.  So ["ELECTRONICS"], ["electronics "] and ["Electronics"]
    all become ["Electronics"] (three distinct raw values, one after
    normalization); normalization never increases the number of distinct
    categories, and records whose raw spellings normalize to the same
    string fall into the same category group. *)
Theorem category_normalization :
  (forall t, exists out,
     clean_supply_chain_data t = Ok out
     /\ Clean.Category out
        = (fun r => str_capitalize (str_strip (Raw.Category r))) <$> t)
  /\ (forall s,
        Forall (fun c => isupper c = false)
          (tail (list_ascii_of_string (str_capitalize (str_strip s)))))
  /\ (fun s => str_capitalize (str_strip s))
       <$> ["ELECTRONICS"; "electronics "; "Electronics"; "home "]%string
     = ["Electronics"; "Electronics"; "Electronics"; "Home"]%string
  /\ nunique ["ELECTRONICS"; "electronics "; "Electronics"]%string = 3%nat
  /\ nunique ((fun s => str_capitalize (str_strip s))
                <$> ["ELECTRONICS"; "electronics "; "Electronics"]%string)
     = 1%nat
  /\ (forall raw : list string,
        (nunique ((fun s => str_capitalize (str_strip s)) <$> raw)
         <= nunique raw)%nat)
  /\ (forall t r1 r2 k,
        r1 ∈ t -> r2 ∈ t ->
        str_capitalize (str_strip (Raw.Category r1)) = k ->
        str_capitalize (str_strip (Raw.Category r2)) = k ->
        cost_of r1 ∈ category_costs t k /\ cost_of r2 ∈ category_costs t k).
Proof.
  split.
  { intros t. eexists. split; [apply clean_supply_chain_data_rowwise |].
    reflexivity. }
  split; [intros s; apply capitalize_tail_lower |].
  split; [vm_compute; reflexivity |].
  split; [vm_compute; reflexivity |].
  split; [vm_compute; reflexivity |].
  split; [intros raw; apply nunique_fmap |].
  intros t r1 r2 k H1 H2 E1 E2.
  split; apply category_costs_elem; eauto.
Qed.

(** ** Cost imputation: claims *)

Section Tiers.
Variable t : list Raw.row.

Lemma existsb_notna_true col :
  existsb notna col = true <-> exists x, x ∈ col /\ is_nan x = false.
Proof.
  rewrite List.existsb_exists. unfold notna. split.
  - intros (x & Hx & Hn). exists x. rewrite list_elem_of_In.
    split; [exact Hx | by destruct (is_nan x)].
  - intros (x & Hx & Hn). exists x. rewrite <- list_elem_of_In.
    split; [exact Hx | by rewrite Hn].
Qed.

Lemma existsb_notna_false col :
  existsb notna col = false -> Forall (fun x => is_nan x = true) col.
Proof.
  intros H. apply Forall_forall. intros x Hx.
  destruct (is_nan x) eqn:E; [reflexivity |].
  assert (existsb notna col = true) by (apply existsb_notna_true; eauto).
  congruence.
Qed.

Lemma tier2_cost_spec r :
  (is_nan (cost_of r) = false -> tier2_cost t r = cost_of r)
  /\ (is_nan (cost_of r) = true ->
      if existsb notna (category_costs t (category_of r))
      then tier2_cost t r
           = median (List.filter notna (category_costs t (category_of r)))
           /\ is_nan (tier2_cost t r) = false
      else tier2_cost t r = median (tier1_cost t <$> t)).
Proof.
  split.
  - intros H. unfold tier2_cost, fill.
    rewrite tier1_cost_keeps by exact H. by rewrite H.
  - intros H. rewrite median_filter. unfold tier2_cost.
    rewrite tier1_cost_missing by exact H.
    destruct (existsb notna _) eqn:E.
    + apply existsb_notna_true in E.
      assert (Hm : nonneg (median (category_costs t (category_of r))) = true).
      { apply median_nonneg; [apply category_costs_sign | exact E]. }
      apply nonneg_not_nan in Hm. unfold fill. by rewrite Hm.
    + apply existsb_notna_false, median_all_nan in E.
      rewrite E. reflexivity.
Qed.
End Tiers.

(** C4.  The missing costs are filled in two passes, in this order.  A
    parsed cost is kept.  A null cost in a category that has at least one
    parsed cost becomes the median of the parsed (non-null) costs of that
    category, which is a number: costs 10, 20, 30 give 20.  A null cost in
    a category without any parsed cost becomes the global median, that is
    the median of the whole [Unit_Cost] column, all categories together,
    as the first pass leaves it.  On [imputation_table] the missing
    [Home] cost becomes 20 and the [Food] cost becomes 25, the median of
    10, 20, 30, 20, 100, 200. *)
Theorem two_tier_imputation :
  (forall t, exists out,
     clean_supply_chain_data t = Ok out
     /\ Forall2
          (fun r c =>
             (is_nan (cost_of r) = false -> c = cost_of r)
             /\ (is_nan (cost_of r) = true ->
                 if existsb notna (category_costs t (category_of r))
                 then c = median (List.filter notna
                                    (category_costs t (category_of r)))
                      /\ is_nan c = false
                 else c = median (tier1_cost t <$> t)))
          t (Clean.Unit_Cost out))
  /\ median [lit 10; lit 20; lit 30] = lit 20
  /\ median [lit 10; lit 20; lit 30; np_nan] = lit 20
  /\ exists out,
       clean_supply_chain_data imputation_table = Ok out
       /\ Clean.Unit_Cost out
          = [lit 10; lit 20; lit 30; lit 20; lit 25; lit 100; lit 200].
Proof.
  split.
  { intros t. eexists. split; [apply clean_supply_chain_data_rowwise |].
    cbn [Clean.Unit_Cost]. apply Forall2_fmap_r, Forall_Forall2_diag.
    apply Forall_forall. intros r _. apply tier2_cost_spec. }
  split; [vm_compute; reflexivity |].
  split; [vm_compute; reflexivity |].
  eexists. split; vm_compute; reflexivity.
Qed.

(** ** Validation and invariants: claims *)

Section Validation.

Lemma cleaned_stock_nonneg value : nonneg (cleaned_stock value) = true.
Proof.
  unfold cleaned_stock, fill.
  destruct (to_numeric_coerce value) as [[] | [] | | [] m e]; reflexivity.
Qed.

Lemma clip_missing lo x : is_nan x = true -> clip lo x = np_nan.
Proof. by destruct x. Qed.

Lemma clip_zero_nonneg x :
  is_nan x = false -> nonneg (clip f_zero x) = true.
Proof. destruct x as [[] | [] | | [] m e]; try discriminate; reflexivity. Qed.

Lemma clip_one_ge_one x : is_nan x = false -> ge_one (clip f_one x) = true.
Proof.
  intros H. unfold clip, ge_one. rewrite H. simpl.
  destruct (fleb f_one x) eqn:E; [exact E | reflexivity].
Qed.

Lemma clip_finite lo x :
  is_finite lo = true -> is_finite x = true -> is_finite (clip lo x) = true.
Proof. intros Hlo Hx. unfold clip. by destruct (_ || _). Qed.

Lemma fmul_finite_present x y :
  is_finite x = true -> is_finite y = true -> is_nan (fmul x y) = false.
Proof.
  destruct x as [sx | | | sx mx ex], y as [sy | | | sy my ey];
    try discriminate; try reflexivity.
  intros _ _. eapply signed_not_nan.
  apply binary_round_aux_signed. lia.
Qed.

Lemma fadd_finite_present x y :
  is_nan x = false -> is_finite y = true -> is_nan (fadd x y) = false.
Proof.
  destruct x as [sx | sx | | sx mx ex], y as [sy | | | sy my ey];
    try discriminate; try reflexivity.
  - destruct sx, sy; reflexivity.
  - intros _ _. unfold fadd, SFadd.
    destruct (_ + _) as [| q | q]; [reflexivity | |];
      eapply signed_not_nan, binary_round_signed.
Qed.

Lemma reorder_point_present r :
  is_finite (Raw.Daily_Demand_Est r) = true ->
  is_finite (Raw.Lead_Time_Days r) = true ->
  is_finite (Raw.Safety_Stock_Target r) = true ->
  is_nan (reorder_point_of r) = false.
Proof.
  intros Hd Hl Hs. unfold reorder_point_of.
  apply fadd_finite_present.
  - apply fmul_finite_present; by apply clip_finite.
  - by apply clip_finite.
Qed.

Lemma fmul_nan_r x : fmul x np_nan = np_nan.
Proof. by destruct x. Qed.

End Validation.

Section CostColumn.
Variable t : list Raw.row.

Lemma cost_column_nonneg :
  Exists (fun r => is_nan (cost_of r) = false) t ->
  Forall (fun x => nonneg x = true) (tier2_cost t <$> t).
Proof.
  intros (r' & Hr' & Hc)%Exists_exists.
  apply Forall_fmap, Forall_forall. intros r _.
  by apply (tier2_cost_nonneg t r r').
Qed.

Lemma cost_column_missing :
  Forall (fun r => is_nan (cost_of r) = true) t ->
  Forall (fun x => x = np_nan) (tier2_cost t <$> t).
Proof.
  intros H. rewrite Forall_forall in H.
  apply Forall_fmap, Forall_forall. intros r Hr.
  by apply tier2_cost_all_missing.
Qed.
End CostColumn.

(** C1 fails as stated: on [missing_cells_table] the cleaned table has
    nulls in [Daily_Demand_Est], [Reorder_Point], [Unit_Cost],
    [Safety_Stock_Target], [Lead_Time_Days] and [Inventory_Value]. *)
Lemma invariants_fail_on_missing_cells :
  (exists out,
     clean_supply_chain_data missing_cells_table = Ok out
     /\ Clean.Daily_Demand_Est out = [np_nan; lit 10]
     /\ Clean.Reorder_Point out = [np_nan; np_nan]
     /\ Clean.Unit_Cost out = [np_nan; np_nan]
     /\ Clean.Safety_Stock_Target out = [lit 70; np_nan]
     /\ Clean.Lead_Time_Days out = [lit 5; np_nan]
     /\ Clean.Inventory_Value out = [np_nan; np_nan])
  /\ ~ (forall t, exists out,
          clean_supply_chain_data t = Ok out /\ claimed_invariants out).
Proof.
  split.
  { eexists. split; [vm_compute; reflexivity |].
    repeat split. }
  intros H. destruct (H missing_cells_table) as (out & Hout & Hinv).
  vm_compute in Hout. injection Hout as <-.
  destruct Hinv as (Hu & _). cbn in Hu.
  apply Forall_cons_1 in Hu as [Hu _]. discriminate.
Qed.

(** C1, as the code has it.  After the pipeline completes:
    [Current_Stock] is non-null and at least 0 in every row;
    [Daily_Demand_Est] and [Safety_Stock_Target] are at least 0 and
    [Lead_Time_Days] is at least 1 in every row whose input cell is
    present, and they are null where the input cell is null;
    [Reorder_Point] is null in every row whose [Daily_Demand_Est] is
    null, and non-null where demand, lead time and safety stock are
    finite numbers; [Unit_Cost] has no null as soon as one cost of the
    table parses, and is null in every row otherwise; [Inventory_Value]
    is null wherever [Unit_Cost] is. *)
Theorem invariants_after_cleaning :
  forall t, exists out,
    clean_supply_chain_data t = Ok out
    /\ Forall (fun x => is_nan x = false /\ nonneg x = true)
         (Clean.Current_Stock out)
    /\ Forall2 (fun r x => if is_nan (Raw.Daily_Demand_Est r)
                           then x = np_nan else nonneg x = true)
         t (Clean.Daily_Demand_Est out)
    /\ Forall2 (fun r x => if is_nan (Raw.Safety_Stock_Target r)
                           then x = np_nan else nonneg x = true)
         t (Clean.Safety_Stock_Target out)
    /\ Forall2 (fun r x => if is_nan (Raw.Lead_Time_Days r)
                           then x = np_nan else ge_one x = true)
         t (Clean.Lead_Time_Days out)
    /\ Forall2 (fun d rp => d = np_nan -> rp = np_nan)
         (Clean.Daily_Demand_Est out) (Clean.Reorder_Point out)
    /\ Forall2 (fun r rp =>
                  is_finite (Raw.Daily_Demand_Est r) = true ->
                  is_finite (Raw.Lead_Time_Days r) = true ->
                  is_finite (Raw.Safety_Stock_Target r) = true ->
                  is_nan rp = false)
         t (Clean.Reorder_Point out)
    /\ (Exists (fun r => is_nan (cost_of r) = false) t ->
        Forall (fun x => is_nan x = false) (Clean.Unit_Cost out))
    /\ (Forall (fun r => is_nan (cost_of r) = true) t ->
        Forall (fun x => x = np_nan) (Clean.Unit_Cost out))
    /\ Forall2 (fun c v => c = np_nan -> v = np_nan)
         (Clean.Unit_Cost out) (Clean.Inventory_Value out).
Proof.
  intros t. eexists. split; [apply clean_supply_chain_data_rowwise |].
  cbn [Clean.Unit_Cost Clean.Current_Stock Clean.Daily_Demand_Est
       Clean.Safety_Stock_Target Clean.Lead_Time_Days Clean.Reorder_Point
       Clean.Inventory_Value].
  split.
  { apply Forall_fmap, Forall_forall. intros r _. simpl.
    pose proof (cleaned_stock_nonneg (Raw.Current_Stock_Raw r)) as H.
    split; [by apply nonneg_not_nan | exact H]. }
  split.
  { apply Forall2_fmap_r, Forall_Forall2_diag, Forall_forall. intros r _.
    unfold compose; cbn beta. destruct (is_nan (Raw.Daily_Demand_Est r)) eqn:E.
    - by apply clip_missing.
    - by apply clip_zero_nonneg. }
  split.
  { apply Forall2_fmap_r, Forall_Forall2_diag, Forall_forall. intros r _.
    unfold compose; cbn beta. destruct (is_nan (Raw.Safety_Stock_Target r)) eqn:E.
    - by apply clip_missing.
    - by apply clip_zero_nonneg. }
  split.
  { apply Forall2_fmap_r, Forall_Forall2_diag, Forall_forall. intros r _.
    unfold compose; cbn beta. destruct (is_nan (Raw.Lead_Time_Days r)) eqn:E.
    - by apply clip_missing.
    - by apply clip_one_ge_one. }
  split.
  { apply Forall2_fmap, Forall_Forall2_diag, Forall_forall. intros r _ H.
    unfold reorder_point_of. rewrite H. reflexivity. }
  split.
  { apply Forall2_fmap_r, Forall_Forall2_diag, Forall_forall. intros r _.
    unfold compose; cbn beta. apply reorder_point_present. }
  split.
  { intros H. eapply Forall_impl; [by apply cost_column_nonneg |].
    intros x. apply nonneg_not_nan. }
  split; [apply cost_column_missing |].
  apply Forall2_fmap, Forall_Forall2_diag, Forall_forall. intros r _ H.
  rewrite H. apply fmul_nan_r.
Qed.

(** C6 fails as stated: on [missing_cells_table], where no cost parses,
    [Unit_Cost] is null in every row, and the missing safety stock and
    lead time stay null. *)
Lemma bounds_fail_without_any_cost :
  (exists out,
     clean_supply_chain_data missing_cells_table = Ok out
     /\ Clean.Unit_Cost out = [np_nan; np_nan]
     /\ Clean.Safety_Stock_Target out = [lit 70; np_nan]
     /\ Clean.Lead_Time_Days out = [lit 5; np_nan])
  /\ ~ (forall t, exists out,
          clean_supply_chain_data t = Ok out /\ claimed_bounds out).
Proof.
  split.
  { eexists. split; [vm_compute; reflexivity |]. repeat split. }
  intros H. destruct (H missing_cells_table) as (out & Hout & Hb).
  vm_compute in Hout. injection Hout as <-.
  destruct Hb as (_ & _ & _ & Hu). cbn in Hu.
  apply Forall_cons_1 in Hu as [[Hu _] _]. discriminate.
Qed.

(** C6, as the code has it.  In every row of the cleaned table,
    [Current_Stock] is at least 0; [Lead_Time_Days] is at least 1 and
    [Safety_Stock_Target] is at least 0 unless the input cell is null;
    and, provided at least one cost of the table parses, [Unit_Cost] is
    non-null and non-negative. *)
Theorem bounds_after_cleaning :
  forall t, exists out,
    clean_supply_chain_data t = Ok out
    /\ Forall (fun x => nonneg x = true) (Clean.Current_Stock out)
    /\ Forall2 (fun r x => is_nan (Raw.Lead_Time_Days r) = false ->
                           ge_one x = true)
         t (Clean.Lead_Time_Days out)
    /\ Forall2 (fun r x => is_nan (Raw.Safety_Stock_Target r) = false ->
                           nonneg x = true)
         t (Clean.Safety_Stock_Target out)
    /\ (Exists (fun r => is_nan (cost_of r) = false) t ->
        Forall (fun x => is_nan x = false /\ nonneg x = true)
          (Clean.Unit_Cost out)).
Proof.
  intros t. eexists. split; [apply clean_supply_chain_data_rowwise |].
  cbn [Clean.Unit_Cost Clean.Current_Stock Clean.Safety_Stock_Target
       Clean.Lead_Time_Days].
  split.
  { apply Forall_fmap, Forall_forall. intros r _.
    apply cleaned_stock_nonneg. }
  split.
  { apply Forall2_fmap_r, Forall_Forall2_diag, Forall_forall. intros r _.
    unfold compose; cbn beta. apply clip_one_ge_one. }
  split.
  { apply Forall2_fmap_r, Forall_Forall2_diag, Forall_forall. intros r _.
    unfold compose; cbn beta. apply clip_zero_nonneg. }
  intros H. eapply Forall_impl; [by apply cost_column_nonneg |].
  intros x Hx. split; [by apply nonneg_not_nan | exact Hx].
Qed.

(* ================================================================= *)
(** * Further properties of the cleaner and of the generator *)

(** The two-decimal rendering on known values: ties of the exact binary
    value go to the even digit, and a value just below a tie is rounded
    down. *)
Example format_2f_values :
  (fun x => format_2f false x)
    <$> [lit 123.45; lit 1234.5; lit 0.125; lit 0.375; lit 2.675;
         lit 999.995; lit 5; lit (-3.14159); f_zero; f_inf; np_nan]
  = ["123.45"; "1234.50"; "0.12"; "0.38"; "2.67";
     "1000.00"; "5.00"; "-3.14"; "0.00"; "inf"; "nan"]%string
  /\ (fun x => format_2f true x)
       <$> [lit 1234.5; lit 1234567.891; lit 100; lit (-1234.5)]
     = ["1,234.50"; "1,234,567.89"; "100.00"; "-1,234.50"]%string.
Proof. split; vm_compute; reflexivity. Qed.

(** ** Trimming *)

Section Trimming.

Lemma lstrip_split s :
  exists pre, s = pre ++ lstrip s /\ Forall (fun c => isspace c = true) pre.
Proof.
  induction s as [| c s (pre & E & Hpre)]; [by exists [] |].
  simpl. destruct (isspace c) eqn:Hc; [| by exists []].
  exists (c :: pre). split; [by rewrite E at 1 | by constructor].
Qed.

Lemma lstrip_head s c : head (lstrip s) = Some c -> isspace c = false.
Proof.
  induction s as [| c' s IH]; simpl; [discriminate |].
  destruct (isspace c') eqn:Hc; [exact IH |].
  simpl. by intros [= <-].
Qed.

Lemma lstrip_id s :
  (forall c, head s = Some c -> isspace c = false) -> lstrip s = s.
Proof.
  destruct s as [| c s]; simpl; [reflexivity |].
  intros H. by rewrite (H c eq_refl).
Qed.

Lemma last_rev_head (s : list chr) : last (rev s) = head s.
Proof. destruct s as [| c s]; [reflexivity |]. simpl. apply last_snoc. Qed.

Lemma head_rev_last (s : list chr) : head (rev s) = last s.
Proof. rewrite <- (rev_involutive s) at 2. by rewrite last_rev_head. Qed.

Lemma rstrip_split s :
  exists post, s = rstrip s ++ post /\ Forall (fun c => isspace c = true) post.
Proof.
  unfold rstrip. destruct (lstrip_split (rev s)) as (pre & E & Hpre).
  exists (rev pre). split; [| by apply Forall_rev].
  rewrite <- rev_app_distr, <- E. by rewrite rev_involutive.
Qed.

Lemma rstrip_last s c : last (rstrip s) = Some c -> isspace c = false.
Proof.
  unfold rstrip. rewrite last_rev_head. apply lstrip_head.
Qed.

Lemma rstrip_id s :
  (forall c, last s = Some c -> isspace c = false) -> rstrip s = s.
Proof.
  intros H. unfold rstrip. rewrite lstrip_id; [apply rev_involutive |].
  intros c Hc. apply H. by rewrite <- head_rev_last.
Qed.

Lemma rstrip_head s c :
  (forall c, head s = Some c -> isspace c = false) ->
  head (rstrip s) = Some c -> isspace c = false.
Proof.
  intros Hs. destruct (rstrip_split s) as (post & E & _).
  destruct (rstrip s) as [| c' l]; [discriminate |].
  intros [= <-]. apply Hs. by rewrite E.
Qed.

(** [s.strip()] removes whitespace at both ends and nothing else, and
    leaves none at either end. *)
Lemma str_strip_spec s :
  exists pre post,
    list_ascii_of_string s = pre ++ list_ascii_of_string (str_strip s) ++ post
    /\ Forall (fun c => isspace c = true) pre
    /\ Forall (fun c => isspace c = true) post
    /\ (forall c, head (list_ascii_of_string (str_strip s)) = Some c ->
                  isspace c = false)
    /\ (forall c, last (list_ascii_of_string (str_strip s)) = Some c ->
                  isspace c = false).
Proof.
  unfold str_strip. rewrite list_ascii_of_string_of_list_ascii.
  destruct (lstrip_split (list_ascii_of_string s)) as (pre & E1 & Hpre).
  destruct (rstrip_split (lstrip (list_ascii_of_string s)))
    as (post & E2 & Hpost).
  exists pre, post.
  split; [etrans; [exact E1 | f_equal; exact E2] |].
  split; [exact Hpre |]. split; [exact Hpost |]. split.
  - intros c. apply rstrip_head. apply lstrip_head.
  - apply rstrip_last.
Qed.

Lemma str_strip_id s :
  (forall c, head (list_ascii_of_string s) = Some c -> isspace c = false) ->
  (forall c, last (list_ascii_of_string s) = Some c -> isspace c = false) ->
  str_strip s = s.
Proof.
  intros Hh Hl. unfold str_strip.
  rewrite lstrip_id by exact Hh. rewrite rstrip_id by exact Hl.
  apply string_of_list_ascii_of_string.
Qed.

Lemma str_strip_idempotent s : str_strip (str_strip s) = str_strip s.
Proof.
  destruct (str_strip_spec s) as (_ & _ & _ & _ & _ & Hh & Hl).
  by apply str_strip_id.
Qed.

End Trimming.

(** ** The console summary *)

Section Summary.

Lemma string_length_chars s :
  String.length s = length (list_ascii_of_string s).
Proof. induction s as [| c s IH]; simpl; [reflexivity | by rewrite IH]. Qed.

Lemma str_strip_length s :
  (String.length (str_strip s) <= String.length s)%nat
  /\ (String.length (str_strip s) = String.length s -> str_strip s = s).
Proof.
  destruct (str_strip_spec s) as (pre & post & E & _).
  rewrite !string_length_chars, E, !length_app. split; [lia |].
  intros H. assert (pre = [] /\ post = []) as [-> ->].
  { destruct pre, post; simpl in H; split; try reflexivity; lia. }
  rewrite app_nil_r in E. simpl in E.
  etrans; [symmetry; apply string_of_list_ascii_of_string |].
  rewrite <- E. apply string_of_list_ascii_of_string.
Qed.

Lemma total_len_strip (col : list string) :
  total_len (str_strip <$> col) <= total_len col
  /\ (total_len (str_strip <$> col) = total_len col ->
      Forall (fun s => str_strip s = s) col).
Proof.
  induction col as [| s col [IH1 IH2]]; csimpl; [by split |].
  destruct (str_strip_length s) as [H1 H2]. split; [lia |].
  intros H. constructor; [apply H2; lia | apply IH2; lia].
Qed.

Lemma total_len_fixed (col : list string) :
  Forall (fun s => str_strip s = s) col ->
  total_len (str_strip <$> col) = total_len col.
Proof.
  induction 1 as [| s col Hs _ IH]; csimpl; [reflexivity |].
  by rewrite Hs, IH.
Qed.

Lemma count_true_fmap_le {A} (f g h : A -> bool) (l : list A) :
  (forall a, a ∈ l ->
     (Nat.b2n (f a) + Nat.b2n (g a) <= Nat.b2n (h a))%nat) ->
  (count_true (f <$> l) + count_true (g <$> l) <= count_true (h <$> l))%nat.
Proof.
  unfold count_true. induction l as [| a l IH]; intros H; [reflexivity |].
  assert (Ha := H a ltac:(left)).
  assert (IH' := IH (fun b Hb => H b ltac:(by right))). csimpl.
  destruct (f a), (g a), (h a); simpl in *; lia.
Qed.

Lemma count_true_three {A} (f g h : A -> bool) (l : list A) :
  (forall a, (Nat.b2n (f a) + Nat.b2n (g a) + Nat.b2n (h a) = 1)%nat) ->
  (count_true (f <$> l) + count_true (g <$> l) + count_true (h <$> l)
   = length l)%nat.
Proof.
  intros H. unfold count_true.
  induction l as [| a l IH]; [reflexivity |]. specialize (H a). csimpl.
  destruct (f a), (g a), (h a); simpl in *; lia.
Qed.

Lemma stock_status_out cs rp :
  String.eqb (stock_status cs rp) "Out of Stock" = feqb cs f_zero.
Proof.
  unfold stock_status. destruct (feqb cs f_zero); [reflexivity |].
  by destruct (fltb cs rp).
Qed.

Lemma stock_status_three cs rp :
  (Nat.b2n (String.eqb (stock_status cs rp) "Out of Stock")
   + Nat.b2n (String.eqb (stock_status cs rp) "Low Stock")
   + Nat.b2n (String.eqb (stock_status cs rp) "Normal Stock") = 1)%nat.
Proof.
  unfold stock_status. destruct (feqb cs f_zero); [reflexivity |].
  by destruct (fltb cs rp).
Qed.

(** The summary, counter by counter, on the input records. *)
Lemma cleaning_summary_rowwise (t : list Raw.row) :
  exists out,
    clean_supply_chain_data t = Ok out
    /\ cleaning_summary t = Ok {|
      spaces_removed :=
        total_len (Raw.Product_ID <$> t)
        - total_len (str_strip <$> (Raw.Product_ID <$> t));
      unique_categories_before := nunique (Raw.Category <$> t);
      unique_categories_after :=
        nunique (str_capitalize <$> (str_strip <$> (Raw.Category <$> t)));
      invalid_costs := count_true ((fun r => is_nan (cost_of r)) <$> t);
      valid_costs :=
        Z.of_nat (length t)
        - Z.of_nat (count_true ((fun r => is_nan (cost_of r)) <$> t));
      negative_stock_count :=
        count_true
          ((fun r => fltb (to_numeric_coerce (Raw.Current_Stock_Raw r)) f_zero)
             <$> t);
      null_stock_count :=
        count_true
          ((fun r => is_nan (to_numeric_coerce (Raw.Current_Stock_Raw r)))
             <$> t);
      null_cost_count := count_true ((fun r => is_nan (cost_of r)) <$> t);
      unique_vendors := nunique (Raw.Vendor_Name <$> t);
      before_lead_time :=
        count_true ((fun r => fltb (Raw.Lead_Time_Days r) f_one) <$> t);
      out_of_stock :=
        count_true ((fun r =>
          String.eqb (stock_status (cleaned_stock (Raw.Current_Stock_Raw r))
                                   (reorder_point_of r)) "Out of Stock") <$> t);
      low_stock :=
        count_true ((fun r =>
          String.eqb (stock_status (cleaned_stock (Raw.Current_Stock_Raw r))
                                   (reorder_point_of r)) "Low Stock") <$> t);
      normal_stock :=
        count_true ((fun r =>
          String.eqb (stock_status (cleaned_stock (Raw.Current_Stock_Raw r))
                                   (reorder_point_of r)) "Normal Stock") <$> t)
    |}.
Proof.
  eexists. split; [apply clean_supply_chain_data_rowwise |].
  unfold cleaning_summary.
  rewrite clean_supply_chain_data_rowwise, apply_clean_cost.
  cbn [mbind result_bind Clean.Stock_Status].
  rewrite loc_assign_series_lt. unfold series_lt.
  rewrite <- !list_fmap_compose. f_equal. f_equal.
  apply (f_equal count_true). apply list_fmap_ext. intros i r _. simpl.
  destruct (to_numeric_coerce _) as [[] | [] | | [] m e]; reflexivity.
Qed.

End Summary.

(** ** Normalized categories stay as they are *)

Section Renormalize.

Lemma isspace_upper c : isspace (upper c) = isspace c.
Proof. destruct c as [[] [] [] [] [] [] [] []]; reflexivity. Qed.

Lemma isspace_lower c : isspace (lower c) = isspace c.
Proof. destruct c as [[] [] [] [] [] [] [] []]; reflexivity. Qed.

Lemma upper_upper c : upper (upper c) = upper c.
Proof. destruct c as [[] [] [] [] [] [] [] []]; reflexivity. Qed.

Lemma lower_lower c : lower (lower c) = lower c.
Proof. destruct c as [[] [] [] [] [] [] [] []]; reflexivity. Qed.

Lemma capitalize_chars s :
  list_ascii_of_string (str_capitalize s)
  = match list_ascii_of_string s with
    | [] => []
    | c :: r => upper c :: (lower <$> r)
    end.
Proof.
  destruct s as [| c s]; simpl; [reflexivity |].
  by rewrite list_ascii_of_string_of_list_ascii.
Qed.

Lemma str_capitalize_idempotent s :
  str_capitalize (str_capitalize s) = str_capitalize s.
Proof.
  destruct s as [| c s]; simpl; [reflexivity |].
  rewrite upper_upper, list_ascii_of_string_of_list_ascii. do 2 f_equal.
  rewrite List.map_map. apply List.map_ext. intros a. apply lower_lower.
Qed.

Lemma last_fmap_lower (l : list chr) c :
  last (lower <$> l) = Some c -> exists c', last l = Some c' /\ c = lower c'.
Proof.
  rewrite fmap_last. destruct (last l) as [c' |]; [| discriminate].
  intros [= <-]. by exists c'.
Qed.

(** Capitalizing keeps a trimmed text trimmed. *)
Lemma str_strip_capitalize s :
  str_strip (str_capitalize (str_strip s)) = str_capitalize (str_strip s).
Proof.
  destruct (str_strip_spec s) as (_ & _ & _ & _ & _ & Hh & Hl).
  apply str_strip_id; intros c; rewrite capitalize_chars;
    destruct (list_ascii_of_string (str_strip s)) as [| c0 r] eqn:E;
    try discriminate.
  - intros [= <-]. rewrite isspace_upper. by apply Hh.
  - destruct r as [| c1 r'].
    + intros [= <-]. rewrite isspace_upper. by apply Hh.
    + intros H.
      destruct (last_fmap_lower (c1 :: r') c H) as (c' & Hc' & ->).
      rewrite isspace_lower. by apply Hl.
Qed.

End Renormalize.

(** ** Further properties: text columns and the summary *)

(** X1.  [Product_ID] and [Vendor_Name] of the cleaned table are the input
    texts without the whitespace at their two ends: only whitespace is
    removed, and none is left at either end. *)
Theorem ids_and_vendors_trimmed :
  forall t, exists out,
    clean_supply_chain_data t = Ok out
    /\ Forall2 (fun r s' => trimmed_of (Raw.Product_ID r) s')
         t (Clean.Product_ID out)
    /\ Forall2 (fun r s' => trimmed_of (Raw.Vendor_Name r) s')
         t (Clean.Vendor_Name out).
Proof.
  intros t. eexists. split; [apply clean_supply_chain_data_rowwise |].
  cbn [Clean.Product_ID Clean.Vendor_Name].
  split; apply Forall2_fmap_r, Forall_Forall2_diag, Forall_forall;
    intros r _; apply str_strip_spec.
Qed.

(** X2.  The printed count of removed spaces is never negative, and it
    is 0 exactly when no [Product_ID] had whitespace at its ends. *)
Theorem spaces_removed_counts :
  forall t, exists sm,
    cleaning_summary t = Ok sm
    /\ 0 <= spaces_removed sm
    /\ (spaces_removed sm = 0 <->
        Forall (fun r => str_strip (Raw.Product_ID r) = Raw.Product_ID r) t).
Proof.
  intros t. destruct (cleaning_summary_rowwise t) as (out & _ & ->).
  eexists. split; [reflexivity |]. cbn [spaces_removed].
  destruct (total_len_strip (Raw.Product_ID <$> t)) as [Hle Hfix].
  split; [lia |]. split.
  - intros H. assert (Hfix' := Hfix ltac:(lia)).
    rewrite Forall_fmap in Hfix'. exact Hfix'.
  - intros H. rewrite (total_len_fixed (Raw.Product_ID <$> t)); [lia |].
    rewrite Forall_fmap. exact H.
Qed.

(** X3.  A normalized category is a fixed point of the normalization:
    trimming and capitalizing it again changes nothing, so every
    [Category] of the cleaned table is already in normal form. *)
Theorem normalized_category_is_fixed :
  (forall s,
     str_capitalize (str_strip (str_capitalize (str_strip s)))
     = str_capitalize (str_strip s))
  /\ forall t, exists out,
       clean_supply_chain_data t = Ok out
       /\ Forall (fun c => str_capitalize (str_strip c) = c)
            (Clean.Category out).
Proof.
  assert (H : forall s,
    str_capitalize (str_strip (str_capitalize (str_strip s)))
    = str_capitalize (str_strip s)).
  { intros s. rewrite str_strip_capitalize. apply str_capitalize_idempotent. }
  split; [exact H |].
  intros t. eexists. split; [apply clean_supply_chain_data_rowwise |].
  cbn [Clean.Category]. apply Forall_fmap, Forall_forall.
  intros r _. apply H.
Qed.

(** X15.  The three printed status counts add up to the number of rows:
    every row has exactly one of the three statuses. *)
Theorem status_counts_partition :
  forall t, exists sm,
    cleaning_summary t = Ok sm
    /\ (out_of_stock sm + low_stock sm + normal_stock sm = length t)%nat.
Proof.
  intros t. destruct (cleaning_summary_rowwise t) as (out & _ & ->).
  eexists. split; [reflexivity |].
  cbn [out_of_stock low_stock normal_stock].
  apply (count_true_three
    (fun r => String.eqb (stock_status _ (reorder_point_of r)) _)
    (fun r => String.eqb (stock_status _ (reorder_point_of r)) _)
    (fun r => String.eqb (stock_status _ (reorder_point_of r)) _)).
  intros r. apply stock_status_three.
Qed.

(** X16.  Every row counted as a negative stock or as a null stock ends
    "Out of Stock", and no row is counted twice: the two printed counts
    together never exceed the printed number of out-of-stock rows. *)
Theorem corrected_stock_is_out_of_stock :
  forall t, exists sm,
    cleaning_summary t = Ok sm
    /\ (negative_stock_count sm + null_stock_count sm <= out_of_stock sm)%nat.
Proof.
  intros t. destruct (cleaning_summary_rowwise t) as (out & _ & ->).
  eexists. split; [reflexivity |].
  cbn [negative_stock_count null_stock_count out_of_stock].
  apply (count_true_fmap_le
    (fun r => fltb (to_numeric_coerce (Raw.Current_Stock_Raw r)) f_zero)
    (fun r => is_nan (to_numeric_coerce (Raw.Current_Stock_Raw r)))).
  intros r _. rewrite stock_status_out. unfold cleaned_stock, fill.
  destruct (to_numeric_coerce _) as [[] | [] | | [] m e]; simpl; lia.
Qed.

(** ** Signs of the derived columns *)

Section DerivedSigns.

Lemma fmul_sign x y :
  nonneg x = true -> nonneg y = true ->
  fmul x y = np_nan \/ nonneg (fmul x y) = true.
Proof.
  intros Hx Hy.
  destruct (nonneg_inv x Hx) as [-> | Sx], (nonneg_inv y Hy) as [-> | Sy].
  - by right.
  - destruct Sy; auto.
  - destruct Sx; auto.
  - destruct Sx, Sy; auto. right. apply signed_nonneg.
    apply (binary_round_aux_signed false). lia.
Qed.

Lemma tier2_cost_sign t r :
  tier2_cost t r = np_nan \/ nonneg (tier2_cost t r) = true.
Proof.
  assert (Hnan : forall x, is_nan x = true -> x = np_nan) by (by intros []).
  unfold tier2_cost, fill. destruct (is_nan (tier1_cost t r)) eqn:E.
  - destruct (median_sign (tier1_cost t <$> t)) as [H | H]; auto.
    apply tier1_column_sign.
  - destruct (tier1_cost_sign t r) as [H | H]; [congruence | auto].
Qed.

(** A cleaned stock that equals 0 is a zero. *)
Lemma cleaned_stock_zero value :
  feqb (cleaned_stock value) f_zero = true ->
  exists s, cleaned_stock value = S754_zero s.
Proof.
  pose proof (cleaned_stock_nonneg value) as H.
  destruct (cleaned_stock value) as [s | [] | | [] m e]; try discriminate.
  by exists s.
Qed.

Lemma fmul_zero_l s y :
  fmul (S754_zero s) y = np_nan \/ feqb (fmul (S754_zero s) y) f_zero = true.
Proof. destruct y; auto. Qed.

Lemma fmul_zero_finite s y :
  is_finite y = true -> feqb (fmul (S754_zero s) y) f_zero = true.
Proof. destruct y; try discriminate; auto. Qed.

Lemma stock_status_low cs rp :
  nonneg cs = true ->
  stock_status cs rp = "Low Stock"%string ->
  fltb f_zero cs = true /\ fltb cs rp = true /\ fltb f_zero rp = true
  /\ is_finite cs = true.
Proof.
  unfold stock_status. intros Hcs.
  destruct (feqb cs f_zero) eqn:E0; [discriminate |].
  destruct (fltb cs rp) eqn:E1; [intros _ | discriminate].
  destruct cs as [[] | [] | | [] m e]; try discriminate;
    destruct rp as [[] | [] | | [] m' e']; try discriminate; auto.
Qed.

End DerivedSigns.

(** ** Further properties: the numeric columns *)

(** X5.  [Inventory_Value], the product of a stock and a cost that are
    floats, is never negative: in every row it is null or at least 0. *)
Theorem inventory_value_not_negative :
  forall t, exists out,
    clean_supply_chain_data t = Ok out
    /\ Forall (fun x => x = np_nan \/ nonneg x = true)
         (Clean.Inventory_Value out).
Proof.
  intros t. eexists. split; [apply clean_supply_chain_data_rowwise |].
  cbn [Clean.Inventory_Value].
  apply Forall_fmap, Forall_forall; intros r _; unfold compose.
  destruct (tier2_cost_sign t r) as [-> | Hc].
  - left. apply fmul_nan_r.
  - apply fmul_sign; [apply cleaned_stock_nonneg | exact Hc].
Qed.

(** X6.  A row is "Out of Stock" exactly when its [Current_Stock] equals
    0, and such a row carries no inventory value: its [Inventory_Value]
    equals 0 when its [Unit_Cost] is a finite number, and is null
    otherwise. *)
Theorem out_of_stock_has_no_value :
  forall t, exists out,
    clean_supply_chain_data t = Ok out
    /\ forall i cs st,
         Clean.Current_Stock out !! i = Some cs ->
         Clean.Stock_Status out !! i = Some st ->
         (st = "Out of Stock"%string <-> feqb cs f_zero = true)
         /\ (st = "Out of Stock"%string ->
             exists c v,
               Clean.Unit_Cost out !! i = Some c
               /\ Clean.Inventory_Value out !! i = Some v
               /\ (if is_finite c then feqb v f_zero = true else v = np_nan)).
Proof.
  intros t. eexists. split; [apply clean_supply_chain_data_rowwise |].
  cbn [Clean.Current_Stock Clean.Stock_Status Clean.Unit_Cost
       Clean.Inventory_Value].
  intros i cs st. rewrite !list_lookup_fmap.
  destruct (t !! i) as [r |]; [| discriminate].
  cbn [fmap option_fmap option_map]. intros [= <-] [= <-].
  assert (Hout : stock_status (cleaned_stock (Raw.Current_Stock_Raw r))
                   (reorder_point_of r) = "Out of Stock"%string
                 <-> feqb (cleaned_stock (Raw.Current_Stock_Raw r)) f_zero = true).
  { rewrite <- (stock_status_out _ (reorder_point_of r)).
    symmetry. apply String.eqb_eq. }
  split; [exact Hout |]. intros Hst. apply Hout in Hst.
  destruct (cleaned_stock_zero _ Hst) as [s ->].
  eexists _, _. split; [reflexivity |]. split; [reflexivity |].
  destruct (tier2_cost t r) as [s' | s' | | s' m e]; reflexivity.
Qed.

(** X7.  A "Low Stock" row always has a finite stock above 0 and a known
    [Reorder_Point] above that stock. *)
Theorem low_stock_rows :
  forall t, exists out,
    clean_supply_chain_data t = Ok out
    /\ forall i,
         Clean.Stock_Status out !! i = Some "Low Stock"%string ->
         exists cs rp,
           Clean.Current_Stock out !! i = Some cs
           /\ Clean.Reorder_Point out !! i = Some rp
           /\ is_finite cs = true
           /\ fltb f_zero cs = true
           /\ fltb cs rp = true
           /\ is_nan rp = false.
Proof.
  intros t. eexists. split; [apply clean_supply_chain_data_rowwise |].
  cbn [Clean.Current_Stock Clean.Stock_Status Clean.Reorder_Point].
  intros i. rewrite !list_lookup_fmap.
  destruct (t !! i) as [r |]; [| discriminate].
  cbn [fmap option_fmap option_map]. intros [= Hst].
  apply stock_status_low in Hst as (H0 & H1 & H2 & H3);
    [| apply cleaned_stock_nonneg].
  eexists _, _. do 2 (split; [reflexivity |]).
  repeat apply conj; try assumption.
  by destruct (reorder_point_of r).
Qed.

(** ** Decimal digits: writing and reading back *)

Section Digits.

Lemma digit_step_pos (acc : positive) (k : N) (q : positive) :
  (N.pos acc * 10 + k = N.pos q)%N -> (N.pos acc * 10 + k)%N = N.pos q.
Proof. auto. Qed.

Lemma N_of_digits_acc (d : Decimal.uint) : forall acc : positive,
  fold_left (fun a c => (a * 10 + digit_val c)%N)
    (list_ascii_of_string (NilEmpty.string_of_uint d)) (N.pos acc)
  = N.pos (Pos.of_uint_acc d acc).
Proof.
  induction d as [| d IH | d IH | d IH | d IH | d IH | d IH | d IH | d IH
                   | d IH | d IH]; intros acc; [reflexivity | ..];
    cbn [NilEmpty.string_of_uint list_ascii_of_string fold_left
         Pos.of_uint_acc];
    rewrite <- IH; f_equal;
    match goal with
    | |- context [digit_val ?c] =>
        let v := eval vm_compute in (digit_val c) in
        change (digit_val c) with v
    end; lia.
Qed.

Lemma N_of_digits_uint (d : Decimal.uint) :
  N_of_digits (list_ascii_of_string (NilEmpty.string_of_uint d))
  = Pos.of_uint d.
Proof.
  unfold N_of_digits.
  induction d as [| d IH | d IH | d IH | d IH | d IH | d IH | d IH | d IH
                   | d IH | d IH]; [reflexivity | exact IH | ..];
    cbn [NilEmpty.string_of_uint list_ascii_of_string fold_left Pos.of_uint];
    rewrite <- N_of_digits_acc; reflexivity.
Qed.

Lemma digits_uint_isdigit (d : Decimal.uint) :
  Forall (fun c => isdigit c = true)
    (list_ascii_of_string (NilEmpty.string_of_uint d)).
Proof. induction d; simpl; constructor; auto. Qed.

(** The digits of a number are digits, there is at least one, and they
    read back as the number. *)
Lemma digits_of_N_spec n :
  Forall (fun c => isdigit c = true) (digits_of_N n)
  /\ digits_of_N n <> []
  /\ N_of_digits (digits_of_N n) = n.
Proof.
  unfold digits_of_N, NilZero.string_of_uint.
  pose proof (DecimalN.Unsigned.of_to n) as Hn. unfold N.of_uint in Hn.
  destruct (N.to_uint n) as [| d | d | d | d | d | d | d | d | d | d] eqn:E;
    (split; [| split]);
    try (rewrite N_of_digits_uint; exact Hn);
    try apply digits_uint_isdigit; try discriminate.
  - repeat constructor.
  - simpl in Hn. subst n. reflexivity.
Qed.

Lemma str_of_int_chars n :
  list_ascii_of_string (str_of_int n)
  = (if n <? 0 then ["-"%char] else []) ++ digits_of_N (Z.to_N (Z.abs n)).
Proof.
  unfold str_of_int, digits_of_N. destruct n as [| p | p]; reflexivity.
Qed.

Lemma N_of_digits_app a b :
  N_of_digits (a ++ b)
  = fold_left (fun acc c => (acc * 10 + digit_val c)%N) b (N_of_digits a).
Proof. unfold N_of_digits. apply fold_left_app. Qed.

End Digits.

(** ** The cost parser on the characters it keeps *)

Section Kept.

Lemma space_not_kept c : isspace c = true -> digit_or_dot c = false.
Proof. destruct c as [[] [] [] [] [] [] [] []]; try discriminate; reflexivity. Qed.

Lemma kept_not_space c : digit_or_dot c = true -> isspace c = false.
Proof. destruct c as [[] [] [] [] [] [] [] []]; try discriminate; reflexivity. Qed.

Lemma digit_kept c : isdigit c = true -> digit_or_dot c = true.
Proof. intros H. unfold digit_or_dot. by rewrite H. Qed.

Lemma kept_cases c :
  digit_or_dot c = true -> isdigit c = true \/ c = "."%char.
Proof.
  unfold digit_or_dot. destruct (isdigit c); [by left |].
  simpl. intros H. right. by apply Ascii.eqb_eq.
Qed.

Lemma filter_spaces l :
  Forall (fun c => isspace c = true) l -> List.filter digit_or_dot l = [].
Proof.
  induction 1 as [| c l Hc _ IH]; simpl; [reflexivity |].
  by rewrite (space_not_kept c Hc).
Qed.

Lemma filter_strip s :
  List.filter digit_or_dot (list_ascii_of_string (str_strip s))
  = List.filter digit_or_dot (list_ascii_of_string s).
Proof.
  destruct (str_strip_spec s) as (pre & post & E & Hpre & Hpost & _).
  apply filter_spaces in Hpre, Hpost. unfold chr in *.
  rewrite E, !List.filter_app, Hpre, Hpost.
  by rewrite app_nil_r.
Qed.

Lemma existsb_digit_filter l :
  existsb isdigit (List.filter digit_or_dot l) = existsb isdigit l.
Proof.
  induction l as [| c l IH]; simpl; [reflexivity |].
  unfold digit_or_dot at 1. destruct (isdigit c) eqn:E; simpl.
  - by rewrite E.
  - destruct (Ascii.eqb c "."); simpl; [by rewrite E |]; exact IH.
Qed.

(** On a text, [clean_cost] only looks at the digits and points. *)
Lemma clean_cost_text s :
  clean_cost (PyStr s)
  = cost_of_kept (List.filter digit_or_dot (list_ascii_of_string s)).
Proof.
  unfold clean_cost, cost_of_kept. cbn [pd_isna py_str].
  unfold any_isdigit, re_sub_non_digit_dot.
  rewrite <- (existsb_digit_filter (list_ascii_of_string (str_strip s))).
  rewrite !filter_strip. reflexivity.
Qed.

End Kept.

(** ** [float] on digits and points *)

Section Plain.

Lemma kept_not_sign c :
  digit_or_dot c = true -> Ascii.eqb c "-" = false /\ Ascii.eqb c "+" = false.
Proof.
  destruct c as [[] [] [] [] [] [] [] []]; try discriminate; by split.
Qed.

Lemma kept_not_letter c :
  digit_or_dot c = true ->
  Ascii.eqb (lower c) "i" = false /\ Ascii.eqb (lower c) "n" = false
  /\ Ascii.eqb (lower c) "e" = false /\ Ascii.eqb c "_" = false.
Proof.
  destruct c as [[] [] [] [] [] [] [] []]; try discriminate; by repeat split.
Qed.

Lemma digit_run_spec s :
  s = (digit_run s).1 ++ (digit_run s).2
  /\ Forall (fun c => isdigit c = true) (digit_run s).1
  /\ (forall c, head (digit_run s).2 = Some c -> isdigit c = false).
Proof.
  induction s as [| c s (IH1 & IH2 & IH3)]; simpl; [by repeat split |].
  destruct (isdigit c) eqn:E.
  - destruct (digit_run s) as [ds r]. simpl in *.
    split; [by rewrite IH1 at 1 |]. split; [by constructor | exact IH3].
  - simpl. split; [reflexivity |]. split; [constructor |].
    by intros c' [= <-].
Qed.

Lemma digit_run_app ds r :
  Forall (fun c => isdigit c = true) ds ->
  (forall c, head r = Some c -> isdigit c = false) ->
  digit_run (ds ++ r) = (ds, r).
Proof.
  intros Hds Hr. induction Hds as [| c ds Hc _ IH]; simpl.
  - destruct r as [| c r]; [reflexivity |]. simpl.
    by rewrite (Hr c eq_refl).
  - by rewrite Hc, IH.
Qed.

Lemma digits_tail_kept s :
  Forall (fun c => digit_or_dot c = true) s -> digits_tail s = digit_run s.
Proof.
  induction 1 as [| c s Hc _ IH]; simpl; [reflexivity |].
  destruct (isdigit c); [by rewrite IH |].
  destruct (kept_not_letter c Hc) as (_ & _ & _ & ->). reflexivity.
Qed.

Lemma digitpart_kept s :
  Forall (fun c => digit_or_dot c = true) s -> digitpart s = digit_run s.
Proof.
  destruct 1 as [| c s Hc Hs]; simpl; [reflexivity |].
  destruct (isdigit c); [by rewrite digits_tail_kept |]. reflexivity.
Qed.

Lemma kept_no_edge_space s :
  Forall (fun c => digit_or_dot c = true) s ->
  (forall c, head s = Some c -> isspace c = false)
  /\ (forall c, last s = Some c -> isspace c = false).
Proof.
  intros H. split; intros c Hc; apply kept_not_space.
  - destruct H as [| c0 s Hc0 _]; [discriminate |].
    by injection Hc as <-.
  - apply last_Some in Hc as [l' ->].
    apply Forall_app in H as [_ H]. by apply Forall_cons_1 in H as [H _].
Qed.

Lemma kept_not_name s (name : string) :
  Forall (fun c => digit_or_dot c = true) s ->
  (name = "inf" \/ name = "infinity" \/ name = "nan")%string ->
  String.eqb (string_of_list_ascii (map lower s)) name = false.
Proof.
  intros Hs Hname.
  destruct Hs as [| c s Hc _].
  { by destruct Hname as [-> | [-> | ->]]. }
  destruct (kept_not_letter c Hc) as (Hi & Hn & _).
  destruct Hname as [-> | [-> | ->]]; cbn [map string_of_list_ascii String.eqb];
    by rewrite ?Hi, ?Hn.
Qed.

Lemma read_exponent_kept s :
  Forall (fun c => digit_or_dot c = true) s -> read_exponent s = Some (0, s).
Proof.
  destruct 1 as [| c s Hc _]; simpl; [reflexivity |].
  destruct (kept_not_letter c Hc) as (_ & _ & -> & _). reflexivity.
Qed.

(** On a text made of digits and points, [float] reads a plain decimal
    literal and raises on anything else. *)
Lemma py_float_kept l :
  Forall (fun c => digit_or_dot c = true) l ->
  py_float (string_of_list_ascii l) = read_plain l.
Proof.
  intros Hl. unfold py_float, read_plain.
  rewrite list_ascii_of_string_of_list_ascii.
  destruct (kept_no_edge_space l Hl) as [Hh Hla].
  rewrite (lstrip_id l Hh), (rstrip_id l Hla).
  assert (Hsign : read_sign l = (false, l)).
  { destruct Hl as [| c l Hc _]; [reflexivity |]. simpl.
    by destruct (kept_not_sign c Hc) as [-> ->]. }
  rewrite Hsign.
  rewrite !(kept_not_name l) by auto. cbn [orb].
  rewrite (digitpart_kept l Hl).
  destruct (digit_run_spec l) as (Esplit & _ & _).
  destruct (digit_run l) as [ip s2]. cbn [fst snd] in Esplit.
  assert (Hs2 : Forall (fun c => digit_or_dot c = true) s2).
  { rewrite Esplit in Hl. by apply Forall_app in Hl as [_ ?]. }
  assert (Hfrac : exists fp s3,
    match s2 with
    | [] => ([], [])
    | c :: r => if Ascii.eqb c "." then digitpart r else ([], s2)
    end = (fp, s3)
    /\ match s2 with
       | [] => ([], [])
       | c :: r => if Ascii.eqb c "." then digit_run r else ([], s2)
       end = (fp, s3)
    /\ Forall (fun c => digit_or_dot c = true) s3).
  { destruct s2 as [| c r]; [by exists [], [] |].
    apply Forall_cons_1 in Hs2 as [Hc Hr].
    destruct (Ascii.eqb c ".").
    - rewrite (digitpart_kept r Hr).
      destruct (digit_run_spec r) as (Er & _ & _).
      destruct (digit_run r) as [fp s3]. exists fp, s3.
      repeat split. rewrite Er in Hr. by apply Forall_app in Hr as [_ ?].
    - exists [], (c :: r). repeat split. by constructor. }
  destruct Hfrac as (fp & s3 & -> & -> & Hs3).
  rewrite (read_exponent_kept s3 Hs3).
  destruct (ip ++ fp) as [| d ds]; [reflexivity |].
  destruct s3; reflexivity.
Qed.

End Plain.

(** ** Further properties: the cost parser on texts and integers *)

Section CostTexts.

Lemma digit_not_point c : isdigit c = true -> Ascii.eqb c "." = false.
Proof. destruct c as [[] [] [] [] [] [] [] []]; try discriminate; reflexivity. Qed.

Lemma filter_digits ds :
  Forall (fun c => isdigit c = true) ds ->
  List.filter digit_or_dot ds = ds
  /\ List.filter (fun c => Ascii.eqb c ".") ds = [].
Proof.
  induction 1 as [| c ds Hc _ [IH1 IH2]]; simpl; [by split |].
  rewrite (digit_kept c Hc), (digit_not_point c Hc), IH1, IH2. by split.
Qed.

Lemma digits_kept ds :
  Forall (fun c => isdigit c = true) ds ->
  Forall (fun c => digit_or_dot c = true) ds.
Proof.
  intros H. eapply Forall_impl; [exact H |]. intros c. apply digit_kept.
Qed.

Lemma existsb_digit_nonempty ds :
  Forall (fun c => isdigit c = true) ds -> ds <> [] ->
  existsb isdigit ds = true.
Proof. destruct 1 as [| c ds Hc _]; [done |]. simpl. by rewrite Hc. Qed.

(** A decimal text: digits, a point, digits. *)
Lemma cost_of_kept_decimal ip fp :
  Forall (fun c => isdigit c = true) ip ->
  Forall (fun c => isdigit c = true) fp ->
  ip ++ fp <> [] ->
  cost_of_kept (ip ++ "."%char :: fp)
  = Ok (of_decimal false (N_of_digits (ip ++ fp)) (- Z.of_nat (length fp))).
Proof.
  intros Hip Hfp Hne. unfold cost_of_kept.
  assert (Hex : existsb isdigit (ip ++ "."%char :: fp) = true).
  { rewrite existsb_app. simpl.
    destruct ip as [| c ip'].
    - simpl in *. by apply existsb_digit_nonempty.
    - apply Forall_cons_1 in Hip as [Hc _]. simpl. by rewrite Hc. }
  rewrite Hex. cbn [negb].
  rewrite py_float_kept.
  2:{ apply Forall_app. split; [by apply digits_kept |].
      constructor; [reflexivity | by apply digits_kept]. }
  unfold read_plain.
  rewrite (digit_run_app ip ("."%char :: fp) Hip) by (by intros c [= <-]).
  cbn [Ascii.eqb Bool.eqb]. 
  replace (digit_run fp) with (fp, @nil chr).
  2:{ symmetry. rewrite <- (app_nil_r fp) at 1.
      by apply digit_run_app. }
  destruct (ip ++ fp) as [| d ds] eqn:E; [done |]. reflexivity.
Qed.

(** Digits only. *)
Lemma cost_of_kept_digits ds :
  Forall (fun c => isdigit c = true) ds -> ds <> [] ->
  cost_of_kept ds = Ok (f_of_Z (Z.of_N (N_of_digits ds))).
Proof.
  intros Hds Hne. unfold cost_of_kept.
  rewrite (existsb_digit_nonempty ds Hds Hne). cbn [negb].
  rewrite py_float_kept by (by apply digits_kept).
  unfold read_plain.
  replace (digit_run ds) with (ds, @nil chr).
  2:{ symmetry. rewrite <- (app_nil_r ds) at 1. by apply digit_run_app. }
  rewrite app_nil_r. destruct ds as [| d ds']; [done |].
  cbn [try_except_ValueError length Z.of_nat Z.sub].
  by rewrite of_decimal_integer.
Qed.

(** Two points or more never read as a number. *)
Lemma read_plain_points l :
  Forall (fun c => digit_or_dot c = true) l ->
  (2 <= length (List.filter (fun c => Ascii.eqb c ".") l))%nat ->
  read_plain l = Raise ValueError.
Proof.
  intros Hl Hpts. unfold read_plain.
  destruct (digit_run_spec l) as (E & Hip & _).
  destruct (digit_run l) as [ip s2]. cbn [fst snd] in *.
  rewrite E, List.filter_app, length_app in Hpts.
  destruct (filter_digits ip Hip) as [_ Hz]. unfold chr in *.
  rewrite Hz in Hpts.
  destruct s2 as [| c r]; [simpl in Hpts; lia |].
  destruct (Ascii.eqb c ".") eqn:Ec.
  - destruct (digit_run_spec r) as (Er & Hfp & _).
    destruct (digit_run r) as [fp s3]. cbn [fst snd] in *.
    simpl in Hpts. rewrite Ec in Hpts. simpl in Hpts.
    rewrite Er, List.filter_app, length_app in Hpts.
    destruct (filter_digits fp Hfp) as [_ Hz']. unfold chr in *.
    rewrite Hz' in Hpts.
    destruct s3; [simpl in Hpts; lia |].
    by destruct (ip ++ fp).
  - by destruct (ip ++ []).
Qed.

End CostTexts.

Section IntegerCells.

Lemma filter_points_kept l :
  List.filter (fun c => Ascii.eqb c ".") (List.filter digit_or_dot l)
  = List.filter (fun c => Ascii.eqb c ".") l.
Proof.
  induction l as [| c l IH]; simpl; [reflexivity |].
  unfold digit_or_dot at 1.
  destruct (Ascii.eqb c ".") eqn:E.
  - rewrite orb_true_r. simpl. by rewrite E, IH.
  - rewrite orb_false_r. destruct (isdigit c); simpl; by rewrite ?E, IH.
Qed.

Lemma filter_kept_all l :
  Forall (fun c => digit_or_dot c = true) (List.filter digit_or_dot l).
Proof.
  apply List.Forall_forall. intros c Hc.
  by apply List.filter_In in Hc as [_ ?].
Qed.

Lemma str_of_int_kept n :
  List.filter digit_or_dot (list_ascii_of_string (str_of_int n))
  = digits_of_N (Z.to_N (Z.abs n)).
Proof.
  rewrite str_of_int_chars, List.filter_app.
  destruct (digits_of_N_spec (Z.to_N (Z.abs n))) as (Hd & _ & _).
  destruct (filter_digits _ Hd) as [E _]. unfold chr in *. rewrite E.
  by destruct (n <? 0).
Qed.

Lemma binary_round_integer neg p :
  of_decimal neg (N.pos p) 0 = binary_round prec emax neg p 0.
Proof. unfold of_decimal. simpl. by rewrite Pos.mul_1_r. Qed.

Lemma strtod_negative ds :
  ds <> [] -> Forall (fun c => isdigit c = true) ds ->
  strtod ("-"%char :: ds) = Some (of_decimal true (N_of_digits ds) 0).
Proof.
  intros Hne Hds.
  assert (Hrun : digit_run ds = (ds, [])).
  { rewrite <- (app_nil_r ds) at 1. by apply digit_run_app. }
  unfold strtod.
  change (skip_blanks ("-"%char :: ds)) with ("-"%char :: ds).
  change (read_sign ("-"%char :: ds)) with (true, ds).
  cbv beta iota. rewrite Hrun. cbv beta iota. rewrite app_nil_r.
  destruct ds as [| d ds']; [done |]. reflexivity.
Qed.

End IntegerCells.

(** X8.  On a text cell the cost parser looks at nothing but the digits
    and decimal points: two texts with the same digits and points, in the
    same order, give the same cost.  A minus sign, a currency mark, a
    thousands separator or an exponent letter makes no difference. *)
Theorem clean_cost_depends_on_digits_and_points :
  forall s1 s2,
    List.filter (fun c => isdigit c || Ascii.eqb c ".")
      (list_ascii_of_string s1)
    = List.filter (fun c => isdigit c || Ascii.eqb c ".")
        (list_ascii_of_string s2) ->
    clean_cost (PyStr s1) = clean_cost (PyStr s2).
Proof.
  intros s1 s2 H. rewrite !clean_cost_text.
  unfold digit_or_dot. by rewrite H.
Qed.

Lemma clean_cost_depends_on_digits_and_points_witness :
  clean_cost (PyStr "-123.45") = clean_cost (PyStr "USD 1 2 3.4 5 each").
Proof.
  apply (clean_cost_depends_on_digits_and_points
           "-123.45" "USD 1 2 3.4 5 each").
  reflexivity.
Defined.

(** X9.  When the digits and points of a text cell are some digits, one
    point and some digits, the parsed cost is the decimal number these
    digits write, correctly rounded to binary64. *)
Theorem clean_cost_reads_decimal_text :
  forall s ip fp,
    List.filter (fun c => isdigit c || Ascii.eqb c ".")
      (list_ascii_of_string s)
    = ip ++ "."%char :: fp ->
    forallb isdigit ip = true ->
    forallb isdigit fp = true ->
    ip ++ fp <> [] ->
    clean_cost (PyStr s)
    = Ok (of_decimal false (N_of_digits (ip ++ fp)) (- Z.of_nat (length fp))).
Proof.
  intros s ip fp H Hip Hfp Hne. rewrite clean_cost_text.
  unfold digit_or_dot. rewrite H.
  apply cost_of_kept_decimal; [| | exact Hne];
    apply List.Forall_forall; by apply List.forallb_forall.
Qed.

Lemma clean_cost_reads_decimal_text_witness :
  clean_cost (PyStr "USD 1,200.50")
  = Ok (of_decimal false 120050 (-2)).
Proof.
  apply (clean_cost_reads_decimal_text "USD 1,200.50"
           (list_ascii_of_string "1200") (list_ascii_of_string "50"));
    [reflexivity | reflexivity | reflexivity | discriminate].
Defined.

(** X10.  A text cell with two decimal points or more never parses: the
    cost is null. *)
Theorem clean_cost_rejects_two_points :
  forall s, (2 <= count_points s)%nat -> clean_cost (PyStr s) = Ok np_nan.
Proof.
  intros s H. rewrite clean_cost_text. unfold cost_of_kept.
  destruct (negb _); [reflexivity |].
  rewrite py_float_kept by apply filter_kept_all.
  rewrite read_plain_points; [reflexivity | apply filter_kept_all |].
  by rewrite filter_points_kept.
Qed.

Lemma clean_cost_rejects_two_points_witness :
  clean_cost (PyStr "1.234.567,89") = Ok np_nan.
Proof.
  apply (clean_cost_rejects_two_points "1.234.567,89"). vm_compute. lia.
Defined.

(** X11.  An integer cost cell of at most 4300 digits, which [str] can
    write, is parsed to its absolute value: the sign is lost. *)
Theorem clean_cost_integer_cell :
  forall n, (Z.abs n < 10 ^ 4300)%Z ->
    clean_cost (PyInt n) = Ok (f_of_Z (Z.abs n)).
Proof.
  intros n _. change (clean_cost (PyInt n)) with (clean_cost (PyStr (str_of_int n))).
  rewrite clean_cost_text, str_of_int_kept.
  destruct (digits_of_N_spec (Z.to_N (Z.abs n))) as (Hd & Hne & Hv).
  rewrite cost_of_kept_digits by assumption.
  rewrite Hv, Z2N.id by lia. reflexivity.
Qed.

Lemma clean_cost_integer_cell_witness :
  (Z.abs (-42) < 10 ^ 4300)%Z /\ clean_cost (PyInt (-42)) = Ok (lit 42).
Proof.
  split; [vm_compute; reflexivity |].
  apply (clean_cost_integer_cell (-42)). vm_compute. reflexivity.
Defined.

(** X12.  An integer stock cell of magnitude at most 2^53, which binary64
    holds exactly, reads the same whether it arrives as a number or as
    the text [str] writes for it, negative numbers included. *)
Theorem to_numeric_integer_text :
  forall n, (Z.abs n <= 2 ^ 53)%Z ->
    to_numeric_coerce (PyStr (str_of_int n)) = f_of_Z n
    /\ cleaned_stock (PyStr (str_of_int n)) = cleaned_stock (PyInt n).
Proof.
  intros n _.
  assert (H : to_numeric_coerce (PyStr (str_of_int n)) = f_of_Z n).
  { cbn [to_numeric_coerce]. unfold to_numeric_str.
    rewrite str_of_int_chars.
    destruct (digits_of_N_spec (Z.to_N (Z.abs n))) as (Hd & Hne & Hv).
    destruct n as [| p | p]; cbn [Z.ltb Z.compare app].
    - rewrite strtod_digits; [by rewrite Hv | exact Hne |].
      apply List.forallb_forall. by apply List.Forall_forall.
    - rewrite strtod_digits; [by rewrite Hv | exact Hne |].
      apply List.forallb_forall. by apply List.Forall_forall.
    - change (Z.to_N (Z.abs (Z.neg p))) with (N.pos p) in *.
      rewrite strtod_negative by assumption. rewrite Hv.
      apply binary_round_integer. }
  split; [exact H |]. unfold cleaned_stock. by rewrite H.
Qed.

Lemma to_numeric_integer_text_witness :
  (Z.abs (-30) <= 2 ^ 53)%Z
  /\ to_numeric_coerce (PyStr "-30") = lit (-30)
  /\ cleaned_stock (PyStr "-30") = cleaned_stock (PyInt (-30)).
Proof.
  split; [vm_compute; discriminate |].
  apply (to_numeric_integer_text (-30)). vm_compute. discriminate.
Defined.

(** ** The generator's encodings, read back by the cleaner *)

Section Generator.

Lemma cents_digits_value (n : N) :
  (n / 100 * 100 + n mod 100 / 10 * 10 + n mod 10 = n)%N.
Proof.
  pose proof (N.div_mod n 100 ltac:(lia)) as H1.
  pose proof (N.mod_upper_bound n 100 ltac:(lia)) as H2.
  pose proof (N.div_mod (n mod 100) 10 ltac:(lia)) as H3.
  pose proof (N.mod_upper_bound (n mod 100) 10 ltac:(lia)) as H4.
  pose proof (N.div_mod n 10 ltac:(lia)) as H5.
  pose proof (N.mod_upper_bound n 10 ltac:(lia)) as H6.
  generalize dependent (n / 100)%N. generalize dependent (n mod 100 / 10)%N.
  generalize dependent ((n mod 100) mod 10)%N.
  generalize dependent (n mod 100)%N.
  generalize dependent (n / 10)%N. generalize dependent (n mod 10)%N.
  intros. lia.
Qed.

Lemma cents_digits_bound (n : N) : (n mod 100 / 10 < 10 /\ n mod 10 < 10)%N.
Proof.
  pose proof (N.mod_upper_bound n 100 ltac:(lia)) as H2.
  pose proof (N.mod_upper_bound n 10 ltac:(lia)) as H6. split; [| lia].
  apply N.Div0.div_lt_upper_bound. lia.
Qed.

Lemma digit_chr_spec d :
  (d < 10)%N -> isdigit (digit_chr d) = true /\ digit_val (digit_chr d) = d.
Proof.
  intros H.
  assert (d = 0 \/ d = 1 \/ d = 2 \/ d = 3 \/ d = 4 \/ d = 5 \/ d = 6
          \/ d = 7 \/ d = 8 \/ d = 9)%N as Hd by lia.
  repeat (destruct Hd as [-> | Hd]; [by vm_compute |]). subst d. by vm_compute.
Qed.

Lemma chars_append (a b : string) :
  list_ascii_of_string (a ++ b)
  = list_ascii_of_string a ++ list_ascii_of_string b.
Proof. induction a as [| c a IH]; simpl; [reflexivity | by rewrite IH]. Qed.

Lemma filter_group3_rev l : forall k,
  List.filter digit_or_dot (group3_rev l k) = List.filter digit_or_dot l.
Proof.
  induction l as [| c l IH]; intros k; simpl; [reflexivity |].
  destruct (k =? 3)%nat; simpl; by rewrite IH.
Qed.

Lemma filter_group3 l :
  List.filter digit_or_dot (group3 l) = List.filter digit_or_dot l.
Proof.
  unfold group3.
  by rewrite List.filter_rev, filter_group3_rev, <- List.filter_rev,
    rev_involutive.
Qed.

(** The digits and the point kept from [f"{x:.2f}"], with or without
    thousands separators. *)
Lemma format_2f_kept grouping x :
  is_finite x = true ->
  List.filter digit_or_dot (list_ascii_of_string (format_2f grouping x))
  = digits_of_N (cents x / 100)
      ++ "."%char :: [digit_chr (cents x mod 100 / 10);
                      digit_chr (cents x mod 10)].
Proof.
  intros Hx. unfold format_2f. rewrite list_ascii_of_string_of_list_ascii.
  assert (Hbody : forall (s : bool) n,
    List.filter digit_or_dot
      ((if s then ["-"%char] else [])
         ++ (if grouping then group3 (digits_of_N (n / 100))
             else digits_of_N (n / 100))
         ++ ["."%char; digit_chr (n mod 100 / 10); digit_chr (n mod 10)])
    = digits_of_N (n / 100)
        ++ "."%char :: [digit_chr (n mod 100 / 10); digit_chr (n mod 10)]).
  { intros s n. rewrite !List.filter_app.
    destruct (digits_of_N_spec (n / 100)) as (Hd & _ & _).
    destruct (filter_digits _ Hd) as [E _].
    destruct (cents_digits_bound n) as [B1 B2].
    destruct (digit_chr_spec _ B1) as [D1 _], (digit_chr_spec _ B2) as [D2 _].
    assert (Hip : List.filter digit_or_dot
                    (if grouping then group3 (digits_of_N (n / 100))
                     else digits_of_N (n / 100)) = digits_of_N (n / 100)).
    { destruct grouping; [rewrite filter_group3 |]; exact E. }
    unfold chr in *. rewrite Hip.
    cbn [List.filter]. rewrite (digit_kept _ D1), (digit_kept _ D2).
    by destruct s. }
  destruct x as [s | | | s m e]; try discriminate; apply Hbody.
Qed.

Lemma cents_text_value n :
  N_of_digits (digits_of_N (n / 100)
                 ++ [digit_chr (n mod 100 / 10); digit_chr (n mod 10)]) = n.
Proof.
  rewrite N_of_digits_app.
  destruct (digits_of_N_spec (n / 100)) as (_ & _ & ->).
  destruct (cents_digits_bound n) as [B1 B2].
  destruct (digit_chr_spec _ B1) as [_ V1], (digit_chr_spec _ B2) as [_ V2].
  cbn [fold_left]. rewrite V1, V2.
  pose proof (cents_digits_value n). lia.
Qed.

(** Whatever surrounds it, as long as it has no digit and no point, the
    two-decimal rendering of a finite cost is read back as the cost in
    hundredths. *)
Lemma clean_cost_format_2f prefix grouping x :
  is_finite x = true ->
  List.filter digit_or_dot (list_ascii_of_string prefix) = [] ->
  clean_cost (PyStr (prefix ++ format_2f grouping x))
  = Ok (of_decimal false (cents x) (-2)).
Proof.
  intros Hx Hp. rewrite clean_cost_text, chars_append, List.filter_app.
  pose proof (format_2f_kept grouping x Hx) as Hk.
  unfold chr in *. rewrite Hp, Hk. cbn [app].
  destruct (digits_of_N_spec (cents x / 100)) as (Hd & Hne & _).
  destruct (cents_digits_bound (cents x)) as [B1 B2].
  destruct (digit_chr_spec _ B1) as [D1 _], (digit_chr_spec _ B2) as [D2 _].
  rewrite cost_of_kept_decimal.
  - by rewrite cents_text_value.
  - exact Hd.
  - by repeat constructor.
  - destruct (digits_of_N (cents x / 100)); [done | discriminate].
Qed.

End Generator.

Section GeneratedStock.

Lemma cleaned_stock_count val :
  0 <= val -> cleaned_stock (PyInt val) = f_of_Z val.
Proof.
  intros H. unfold cleaned_stock, fill. cbn [to_numeric_coerce].
  destruct val as [| p | p]; [reflexivity | | lia].
  unfold f_of_Z, binary_normalize.
  pose proof (binary_round_signed false p 0) as S.
  destruct (binary_round prec emax false p 0); inversion S; reflexivity.
Qed.

Lemma cleaned_stock_negated val :
  0 <= val -> feqb (cleaned_stock (PyInt (- val))) f_zero = true.
Proof.
  intros H. unfold cleaned_stock, fill. cbn [to_numeric_coerce].
  destruct val as [| p | p]; [reflexivity | | lia].
  change (- Z.pos p) with (Z.neg p). unfold f_of_Z, binary_normalize.
  pose proof (binary_round_signed true p 0) as S.
  destruct (binary_round prec emax true p 0); inversion S; reflexivity.
Qed.

Lemma cleaned_stock_with_unit val :
  cleaned_stock (PyStr (str_of_int val ++ " pcs")) = f_zero.
Proof.
  unfold cleaned_stock. cbn [to_numeric_coerce].
  rewrite to_numeric_str_foreign; [reflexivity |].
  rewrite chars_append, existsb_app. apply orb_true_r.
Qed.

(** The thresholds of the generator are nested. *)
Lemma below_threshold r :
  (fltb r (lit 0.03) = true -> fltb r (lit 0.10) = true)
  /\ (fltb r (lit 0.06) = true -> fltb r (lit 0.10) = true).
Proof.
  destruct r as [s | s | | s m e];
    [by destruct s | by destruct s | by split |].
  unfold fltb, SFltb.
  let a := eval vm_compute in (lit 0.03) in change (lit 0.03) with a.
  let a := eval vm_compute in (lit 0.06) in change (lit 0.06) with a.
  let a := eval vm_compute in (lit 0.10) in change (lit 0.10) with a.
  cbn [SFcompare]. destruct s; [by split |].
  destruct (Z.compare_spec e (-58)), (Z.compare_spec e (-57)),
    (Z.compare_spec e (-56)); try lia; by split.
Qed.

End GeneratedStock.

(** X13.  The three textual encodings of a cost that the generator
    writes (with a dollar sign, with a currency code, with thousands
    separators) are all read back by the cost parser as the same number,
    the cost in hundredths; the placeholder text and the missing cell are
    read as null.  So the parser applied to a generated cell gives that
    number or null, unless the cell is the plain number itself. *)
Theorem generated_cost_round_trip :
  forall val r,
    is_finite val = true ->
    let v := of_decimal false (cents val) (-2) in
    clean_cost (PyStr ("$" ++ format_2f false val)) = Ok v
    /\ clean_cost (PyStr ("USD " ++ format_2f false val)) = Ok v
    /\ clean_cost (PyStr (format_2f true val)) = Ok v
    /\ (make_dirty_cost val r = PyFloat val
        \/ clean_cost (make_dirty_cost val r) = Ok np_nan
        \/ clean_cost (make_dirty_cost val r) = Ok v).
Proof.
  intros val r Hval v.
  assert (H1 := clean_cost_format_2f "$" false val Hval eq_refl).
  assert (H2 := clean_cost_format_2f "USD " false val Hval eq_refl).
  assert (H3 := clean_cost_format_2f "" true val Hval eq_refl).
  cbn [String.append] in H3.
  do 3 (split; [assumption |]).
  unfold make_dirty_cost.
  destruct (fltb r (lit 0.05)); [by right; left |].
  destruct (fltb r (lit 0.10)); [by right; right |].
  destruct (fltb r (lit 0.15)); [by right; right |].
  destruct (_ && _); [by right; right |].
  destruct (fltb r (lit 0.22)); [by right; left | by left].
Qed.

Lemma generated_cost_round_trip_witness :
  clean_cost (make_dirty_cost (lit 1234.5) (lit 0.17)) = Ok (lit 1234.5)
  /\ clean_cost (PyStr "$1234.50") = Ok (lit 1234.5).
Proof.
  destruct (generated_cost_round_trip (lit 1234.5) (lit 0.17) eq_refl)
    as (H1 & _ & H3 & _).
  split; [exact H3 | exact H1].
Defined.

(** X14.  Of the four encodings of a stock count that the generator
    writes, the cleaner recovers the count only from the plain number:
    the negated count, the missing cell and the count with its unit all
    end as a [Current_Stock] equal to 0. *)
Theorem generated_stock_round_trip :
  forall val r,
    0 <= val ->
    (fltb r (lit 0.10) = true ->
     feqb (cleaned_stock (make_dirty_stock val r)) f_zero = true)
    /\ (fltb r (lit 0.10) = false ->
        make_dirty_stock val r = PyInt val
        /\ cleaned_stock (make_dirty_stock val r) = f_of_Z val).
Proof.
  intros val r Hval. destruct (below_threshold r) as [B1 B2].
  unfold make_dirty_stock. split; intros Hr.
  - destruct (fltb r (lit 0.03)); [by apply cleaned_stock_negated |].
    destruct (fltb r (lit 0.06)); [reflexivity |].
    rewrite Hr. by rewrite cleaned_stock_with_unit.
  - destruct (fltb r (lit 0.03)); [rewrite B1 in Hr; done |].
    destruct (fltb r (lit 0.06)); [rewrite B2 in Hr; done |].
    rewrite Hr. split; [reflexivity | by apply cleaned_stock_count].
Qed.

Lemma generated_stock_round_trip_witness :
  feqb (cleaned_stock (make_dirty_stock 150 (lit 0.07))) f_zero = true
  /\ cleaned_stock (make_dirty_stock 150 (lit 0.5)) = lit 150.
Proof.
  split.
  - apply (generated_stock_round_trip 150 (lit 0.07)); [lia | reflexivity].
  - apply (generated_stock_round_trip 150 (lit 0.5)); [lia | reflexivity].
Defined.

